(** * speech-dynamics: the request-scoped analysis pipeline of [app.py]

    A shallow embedding of [src/app.py].  Python values are modelled as
    the code has them:

    - a [str] is the list of its Unicode code points ([pystr]);
    - a numpy [float64] is a [spec_float] (IEEE 754 binary64 without
      the bit layout), a numpy array a list;
    - the file system is a finite map from path to contents;
    - the wall clock and the operating system's entropy source are
      fields of the [world] that the handlers thread through;
    - exceptions are the [Raise] results of a state-and-error monad.

    The third-party libraries ([pronouncing], [speech_recognition],
    [parselmouth], [matplotlib]) are not part of the repository; they
    are reached only through the interface [Externals].  *)

From Stdlib Require Import SpecFloat DecimalN.
From stdpp Require Import strings gmap list fin_maps.

Local Open Scope N_scope.

(** ** Python strings *)

(** A [str]: the sequence of its code points. *)
Abbreviation pystr := (list N).

(** A string literal of the source, as code points. *)
Definition lit (s : string) : pystr :=
  (λ c, Ascii.N_of_ascii c) <$> String.list_ascii_of_string s.

(** [sep.join(parts)] *)
Fixpoint join (sep : pystr) (parts : list pystr) : pystr :=
  match parts with
  | [] => []
  | [p] => p
  | p :: rest => p ++ sep ++ join sep rest
  end.

(** [str.isspace] on one code point (CPython's [_PyUnicode_IsWhitespace]). *)
Definition isspace (c : N) : bool :=
  ((9 <=? c) && (c <=? 13)) || ((28 <=? c) && (c <=? 32))
  || (c =? 133) || (c =? 160) || (c =? 5760)
  || ((8192 <=? c) && (c <=? 8202))
  || (c =? 8232) || (c =? 8233) || (c =? 8239) || (c =? 8287)
  || (c =? 12288).

(** [str.split()] with no separator: the maximal runs of characters
    that are not whitespace, in order.  [cur] is the word being read. *)
Fixpoint split_go (cur : pystr) (s : pystr) : list pystr :=
  match s with
  | [] => match cur with [] => [] | _ => [cur] end
  | c :: s' =>
      if isspace c
      then match cur with
           | [] => split_go [] s'
           | _ => cur :: split_go [] s'
           end
      else split_go (cur ++ [c]) s'
  end.

Definition split (s : pystr) : list pystr := split_go [] s.

(** [s.startswith(p)] and [s.endswith(p)] for a one-character [p]. *)
Definition startswith_char (c : N) (s : pystr) : bool :=
  match s with
  | c' :: _ => c' =? c
  | [] => false
  end.

Definition endswith_char (c : N) (s : pystr) : bool :=
  startswith_char c (reverse s).

(** [s.zfill(w)]-style left padding with ['0'], as the [%02d] and
    [%032x] conversions do. *)
Definition zfill (w : nat) (s : pystr) : pystr :=
  replicate (w - length s)%nat 48 ++ s.

(** Decimal digits of a natural number, most significant first. *)
Fixpoint uint_codes (u : Decimal.uint) : pystr :=
  match u with
  | Decimal.Nil => []
  | Decimal.D0 u => 48 :: uint_codes u
  | Decimal.D1 u => 49 :: uint_codes u
  | Decimal.D2 u => 50 :: uint_codes u
  | Decimal.D3 u => 51 :: uint_codes u
  | Decimal.D4 u => 52 :: uint_codes u
  | Decimal.D5 u => 53 :: uint_codes u
  | Decimal.D6 u => 54 :: uint_codes u
  | Decimal.D7 u => 55 :: uint_codes u
  | Decimal.D8 u => 56 :: uint_codes u
  | Decimal.D9 u => 57 :: uint_codes u
  end.

Definition dec (n : N) : pystr := uint_codes (N.to_uint n).

(** Lower-case hexadecimal digits, most significant first. *)
Fixpoint hex_codes (u : Hexadecimal.uint) : pystr :=
  match u with
  | Hexadecimal.Nil => []
  | Hexadecimal.D0 u => 48 :: hex_codes u
  | Hexadecimal.D1 u => 49 :: hex_codes u
  | Hexadecimal.D2 u => 50 :: hex_codes u
  | Hexadecimal.D3 u => 51 :: hex_codes u
  | Hexadecimal.D4 u => 52 :: hex_codes u
  | Hexadecimal.D5 u => 53 :: hex_codes u
  | Hexadecimal.D6 u => 54 :: hex_codes u
  | Hexadecimal.D7 u => 55 :: hex_codes u
  | Hexadecimal.D8 u => 56 :: hex_codes u
  | Hexadecimal.D9 u => 57 :: hex_codes u
  | Hexadecimal.Da u => 97 :: hex_codes u
  | Hexadecimal.Db u => 98 :: hex_codes u
  | Hexadecimal.Dc u => 99 :: hex_codes u
  | Hexadecimal.Dd u => 100 :: hex_codes u
  | Hexadecimal.De u => 101 :: hex_codes u
  | Hexadecimal.Df u => 102 :: hex_codes u
  end.

Definition hex (n : N) : pystr := hex_codes (N.to_hex_uint n).

Definition is_dec_digit (c : N) : bool := (48 <=? c) && (c <=? 57).

Definition is_hex_digit (c : N) : bool :=
  is_dec_digit c || ((97 <=? c) && (c <=? 102)).

(** ** [os.path.join] (POSIX), for two components *)

Definition os_path_join (a b : pystr) : pystr :=
  if startswith_char 47 b then b
  else if bool_decide (a = []) || endswith_char 47 a then a ++ b
  else a ++ [47] ++ b.

(** ** Exceptions, results and the world *)

Inductive exn :=
| UnknownValueError                (* speech_recognition *)
| RequestError (msg : pystr)       (* speech_recognition; [str(e) = msg] *)
| OSError (path : pystr)           (* open / save of a path failed *)
| IndexError                       (* numpy boolean index of wrong length *)
| ValueError                       (* pyplot: x and y differ in length *)
| LibraryError (msg : pystr).      (* anything else a library raises *)

Inductive result (A : Type) :=
| Ok (a : A)
| Raise (e : exn).
Arguments Ok {A} a.
Arguments Raise {A} e.

(** What a path holds: raw bytes (an upload, a PNG) or the text written
    through a text-mode file object. *)
Inductive file_data :=
| Bytes (b : list N)
| Text (s : pystr).

(** [datetime.datetime] *)
Record datetime := {
  year : N; month : N; day : N;
  hour : N; minute : N; second : N;
  microsecond : N
}.

Record world := {
  fs : gmap pystr file_data;   (* path -> contents *)
  clock : datetime;            (* what [datetime.now()] reads *)
  entropy : nat → N;           (* the bytes [os.urandom] hands out ... *)
  drawn : nat                  (* ... and how many were taken so far *)
}.

(** Computations that read and write the world and may raise. *)
Definition M (A : Type) : Type := world → result A * world.

Definition ret {A} (a : A) : M A := λ w, (Ok a, w).

Definition throw {A} (e : exn) : M A := λ w, (Raise e, w).

Definition bind {A B} (m : M A) (k : A → M B) : M B :=
  λ w, match m w with
       | (Ok a, w') => k a w'
       | (Raise e, w') => (Raise e, w')
       end.

(** A library call that returns or raises without touching the world. *)
Definition lift {A} (r : result A) : M A := λ w, (r, w).

(** [try: body  except ...: handler] *)
Definition try_except {A} (body : M A) (handler : exn → option (M A)) : M A :=
  λ w, match body w with
       | (Ok a, w') => (Ok a, w')
       | (Raise e, w') =>
           match handler e with
           | Some h => h w'
           | None => (Raise e, w')
           end
       end.

#[global] Instance M_ret : MRet M := @ret.
#[global] Instance M_bind : MBind M := λ A B k m, bind m k.

(** ** [generate_unique_name] *)

(** [datetime.now()] *)
Definition datetime_now : M datetime := λ w, (Ok (clock w), w).

(** [d.strftime('%Y%m%d_%H%M%S')]: the year in four digits, the other
    fields in two. *)
Definition strftime_Ymd_HMS (d : datetime) : pystr :=
  zfill 4 (dec (year d)) ++ zfill 2 (dec (month d)) ++ zfill 2 (dec (day d))
  ++ lit "_"
  ++ zfill 2 (dec (hour d)) ++ zfill 2 (dec (minute d))
  ++ zfill 2 (dec (second d)).

(** [os.urandom(n)]: the next [n] bytes of the entropy source. *)
Definition pending (n : nat) (w : world) : list N :=
  (λ i, entropy w i mod 256) <$> seq (drawn w) n.

Definition consume (n : nat) (w : world) : world :=
  {| fs := fs w; clock := clock w; entropy := entropy w;
     drawn := (drawn w + n)%nat |}.

Definition os_urandom (n : nat) : M (list N) := λ w,
  (Ok (pending n w), consume n w).

(** [int.from_bytes(b, 'big')] *)
Definition int_from_bytes (b : list N) : N :=
  foldl (λ acc x, acc * 256 + x) 0 b.

(** [uuid.UUID(bytes=b, version=4).int]: the variant and version bits
    are forced as RFC 4122 prescribes. *)
Definition uuid_int_v4 (b : list N) : N :=
  let i := int_from_bytes b in
  let i := N.ldiff i (N.shiftl 0xc000 48) in
  let i := N.lor i (N.shiftl 0x8000 48) in
  let i := N.ldiff i (N.shiftl 0xf000 64) in
  N.lor i (N.shiftl 4 76).

(** [uuid.uuid4().hex]: ['%032x' % self.int] *)
Definition uuid4_hex : M pystr :=
  b ← os_urandom 16;
  mret (zfill 32 (hex (uuid_int_v4 b))).

Definition generate_unique_name : M pystr :=
  now ← datetime_now;
  let timestamp := strftime_Ymd_HMS now in
  h ← uuid4_hex;
  let unique_id := take 8 h in
  mret (timestamp ++ lit "_" ++ unique_id).

(** ** The libraries the application calls *)

(** numpy's [float64] and the constant the source compares with. *)
Abbreviation float64 := spec_float.

Definition zero : float64 := S754_zero false.

(** What the source reads from a [parselmouth.Pitch]:
    [selected_array['frequency']] and [xs()]. *)
Record Pitch := {
  frequency : list float64;
  pitch_xs : list float64
}.

(** What the source reads from a [parselmouth.Intensity]: the
    two-dimensional array [values] (a list of rows) and [xs()]. *)
Record Intensity := {
  values : list (list float64);
  intensity_xs : list float64
}.

(** A matplotlib figure, as far as the source builds one. *)
Record line2d := {
  xdata : list float64;
  ydata : list float64;
  color : pystr
}.

Record axes := {
  position : nat * nat * nat;
  lines : list line2d;
  xlabel : pystr;
  ylabel : pystr;
  title : pystr;
  grid : bool
}.

Record figure := {
  figsize : N * N;
  all_axes : list axes;        (* the current axes first *)
  tight : bool
}.

Class Externals := {
  (** [pronouncing.phones_for_word]: the transcriptions the static
      pronunciation dictionary lists for a word, in the dictionary's
      order; empty when it lists none. *)
  phones_for_word : pystr → list pystr;
  (** [with sr.AudioFile(path) as source: recognizer.record(source)],
      on the contents of the file. *)
  AudioData : Type;
  sr_record : file_data → result AudioData;
  (** [recognizer.recognize_google] *)
  recognize_google : AudioData → result pystr;
  (** [parselmouth.Sound], on the contents of the file, and its
      [to_pitch] and [to_intensity]. *)
  Sound : Type;
  parselmouth_Sound : file_data → result Sound;
  to_pitch : Sound → result Pitch;
  to_intensity : Sound → result Intensity;
  (** The PNG encoding [plt.savefig] writes for a figure. *)
  png_of_figure : figure → list N;
  (** Whether the operating system lets the process create or truncate
      the file at a path (the directory exists, the name is legal). *)
  creatable : pystr → bool
}.

(** ** numpy arrays *)

(** [a > 0], element-wise. *)
Definition gt0 (a : list float64) : list bool :=
  (λ x, SFltb zero x) <$> a.

(** The elements of [a] at which [mask] is true. *)
Fixpoint mask_select {A} (a : list A) (mask : list bool) : list A :=
  match a, mask with
  | x :: a', b :: mask' =>
      if b then x :: mask_select a' mask' else mask_select a' mask'
  | _, _ => []
  end.

(** [a[mask]] for a boolean array [mask]: numpy raises [IndexError]
    unless [mask] has the length of [a]. *)
Definition bool_index {A} (a : list A) (mask : list bool) : result (list A) :=
  if decide (length a = length mask) then Ok (mask_select a mask)
  else Raise IndexError.

(** [m.T.flatten()]: the entries of a two-dimensional array read column
    by column. *)
Definition column {A} (j : nat) (m : list (list A)) : list A :=
  omap (λ row : list A, row !! j) m.

Definition ncols {A} (m : list (list A)) : nat :=
  match m with
  | row :: _ => length row
  | [] => 0%nat
  end.

Definition T_flatten {A} (m : list (list A)) : list A :=
  mjoin ((λ j, column j m) <$> seq 0 (ncols m)).

(** ** matplotlib.pyplot, on the figure being drawn *)

Definition new_axes (pos : nat * nat * nat) : axes :=
  {| position := pos; lines := []; xlabel := []; ylabel := [];
     title := []; grid := false |}.

Definition plt_figure (size : N * N) : figure :=
  {| figsize := size; all_axes := []; tight := false |}.

Definition plt_subplot (r c i : nat) (fig : figure) : figure :=
  {| figsize := figsize fig; all_axes := new_axes (r, c, i) :: all_axes fig;
     tight := tight fig |}.

(** Apply [f] to the current axes; pyplot makes one when there is none. *)
Definition on_current (f : axes → axes) (fig : figure) : figure :=
  {| figsize := figsize fig;
     all_axes := match all_axes fig with
                 | ax :: rest => f ax :: rest
                 | [] => [f (new_axes (1, 1, 1)%nat)]
                 end;
     tight := tight fig |}.

(** [plt.plot(x, y, color=c)]: matplotlib raises [ValueError] when [x]
    and [y] differ in length. *)
Definition plt_plot (x y : list float64) (c : pystr) (fig : figure) : result figure :=
  if decide (length x = length y)
  then Ok (on_current (λ ax,
         {| position := position ax;
            lines := lines ax ++ [{| xdata := x; ydata := y; color := c |}];
            xlabel := xlabel ax; ylabel := ylabel ax; title := title ax;
            grid := grid ax |}) fig)
  else Raise ValueError.

Definition plt_xlabel (s : pystr) : figure → figure :=
  on_current (λ ax,
    {| position := position ax; lines := lines ax; xlabel := s;
       ylabel := ylabel ax; title := title ax; grid := grid ax |}).

Definition plt_ylabel (s : pystr) : figure → figure :=
  on_current (λ ax,
    {| position := position ax; lines := lines ax; xlabel := xlabel ax;
       ylabel := s; title := title ax; grid := grid ax |}).

Definition plt_title (s : pystr) : figure → figure :=
  on_current (λ ax,
    {| position := position ax; lines := lines ax; xlabel := xlabel ax;
       ylabel := ylabel ax; title := s; grid := grid ax |}).

(** [plt.grid()] with no argument toggles the grid lines. *)
Definition plt_grid : figure → figure :=
  on_current (λ ax,
    {| position := position ax; lines := lines ax; xlabel := xlabel ax;
       ylabel := ylabel ax; title := title ax; grid := negb (grid ax) |}).

Definition plt_tight_layout (fig : figure) : figure :=
  {| figsize := figsize fig; all_axes := all_axes fig; tight := true |}.

(** ** Files *)

Definition set_fs (files : gmap pystr file_data) (w : world) : world :=
  {| fs := files; clock := clock w; entropy := entropy w; drawn := drawn w |}.

(** Opening a path for reading. *)
Definition fs_read (path : pystr) : M file_data := λ w,
  match fs w !! path with
  | Some d => (Ok d, w)
  | None => (Raise (OSError path), w)
  end.

(** ** Flask requests and responses *)

(** [werkzeug.datastructures.FileStorage] *)
Record FileStorage := {
  filename : pystr;
  stream : list N
}.

Inductive http_method := GET | POST | HEAD.

(** [request.files] is a multi-dict: an upload field can occur more than
    once, and indexing yields its first occurrence. *)
Record request := {
  method : http_method;
  files : list (pystr * FileStorage)
}.

Fixpoint multidict_get {V} (key : pystr) (d : list (pystr * V)) : option V :=
  match d with
  | [] => None
  | (k, v) :: d' => if decide (k = key) then Some v else multidict_get key d'
  end.

(** [url_for(endpoint, filename=...)], kept symbolic. *)
Inductive url := url_for (endpoint : pystr) (filename_arg : pystr).

(** The keyword arguments of the second [render_template] call. *)
Record page_context := {
  ctx_text : pystr;
  ctx_phonetic : pystr;
  ctx_plot_url : url;
  ctx_download_url : url
}.

Inductive response :=
| Plain (body : pystr)
| render_template (template : pystr) (ctx : option page_context).

(** ** The application *)

Definition UPLOAD_FOLDER : pystr := lit "uploads".
Definition OUTPUT_FOLDER : pystr := lit "outputs".

(** The series that reach the two [plt.plot] calls:
    pitch times, pitch values, intensity times, intensity values. *)
Abbreviation series4 :=
  (list float64 * list float64 * list float64 * list float64)%type.

Section App.
Context `{Externals}.

(** Creating (or truncating) the file at [path] and writing [d]. *)
Definition fs_write (path : pystr) (d : file_data) : M () := λ w,
  if creatable path
  then (Ok (), set_fs (<[path := d]> (fs w)) w)
  else (Raise (OSError path), w).

(** [plt.savefig(path)] *)
Definition plt_savefig (path : pystr) (fig : figure) : M () :=
  fs_write path (Bytes (png_of_figure fig)).

(** [file.save(path)] *)
Definition file_save (file : FileStorage) (path : pystr) : M () :=
  fs_write path (Bytes (stream file)).

(** app.py, lines 25-28 *)
Definition phonetic_transcription (word : pystr) : pystr :=
  let phones := phones_for_word word in
  match phones with
  | p :: _ => p
  | [] => lit "No transcription found"
  end.

(** app.py, lines 30-40 *)
Definition transcribe_audio_to_text (audio_path : pystr) : M pystr :=
  try_except
    (data ← fs_read audio_path;
     audio ← lift (sr_record data);
     text ← lift (recognize_google audio);
     mret text)
    (λ e, match e with
          | UnknownValueError =>
              Some (mret (lit "Could not understand the audio."))
          | RequestError msg =>
              Some (mret (lit "Error with the API: " ++ msg))
          | _ => None
          end).

(** app.py, lines 47-51: the voicing filter. *)
Definition voiced (pitch : Pitch) : result (list float64 * list float64) :=
  let pitch_values := frequency pitch in
  let pitch_times := pitch_xs pitch in
  let voiced_frames := gt0 pitch_values in
  match bool_index pitch_values voiced_frames with
  | Raise e => Raise e
  | Ok pitch_values =>
      match bool_index pitch_times voiced_frames with
      | Raise e => Raise e
      | Ok pitch_times => Ok (pitch_times, pitch_values)
      end
  end.

(** app.py, lines 57-59 *)
Definition truncate_series (s : series4) : series4 :=
  let '(pitch_times, pitch_values, intensity_times, intensity_values) := s in
  let min_len :=
    (length pitch_times `min` (length pitch_values
       `min` (length intensity_times `min` length intensity_values)))%nat in
  (take min_len pitch_times, take min_len pitch_values,
   take min_len intensity_times, take min_len intensity_values).

(** app.py, lines 46-55: the four series as the libraries deliver
    them, the pitch already filtered. *)
Definition extracted_series (sound : Sound) : result series4 :=
  match to_pitch sound with
  | Raise e => Raise e
  | Ok pitch =>
      match voiced pitch with
      | Raise e => Raise e
      | Ok (pitch_times, pitch_values) =>
          match to_intensity sound with
          | Raise e => Raise e
          | Ok intensity =>
              let intensity_values := T_flatten (values intensity) in
              let intensity_times := intensity_xs intensity in
              Ok (pitch_times, pitch_values, intensity_times, intensity_values)
          end
      end
  end.

(** app.py, lines 61-77 *)
Definition draw (s : series4) : result figure :=
  let '(pitch_times, pitch_values, intensity_times, intensity_values) := s in
  let fig := plt_figure (10, 6) in
  let fig := plt_subplot 2 1 1 fig in
  match plt_plot pitch_times pitch_values (lit "blue") fig with
  | Raise e => Raise e
  | Ok fig =>
      let fig := plt_xlabel (lit "Time (s)") fig in
      let fig := plt_ylabel (lit "Pitch (Hz)") fig in
      let fig := plt_title (lit "Pitch Analysis") fig in
      let fig := plt_grid fig in
      let fig := plt_subplot 2 1 2 fig in
      match plt_plot intensity_times intensity_values (lit "red") fig with
      | Raise e => Raise e
      | Ok fig =>
          let fig := plt_xlabel (lit "Time (s)") fig in
          let fig := plt_ylabel (lit "Intensity (dB)") fig in
          let fig := plt_title (lit "Intensity Analysis") fig in
          let fig := plt_grid fig in
          Ok (plt_tight_layout fig)
      end
  end.

(** app.py, lines 42-81 *)
Definition prosody_analysis (audio_path output_name : pystr) : M pystr :=
  data ← fs_read audio_path;
  sound ← lift (parselmouth_Sound data);
  raw ← lift (extracted_series sound);
  fig ← lift (draw (truncate_series raw));
  let plot_path := os_path_join (lit "static") (output_name ++ lit "_prosody.png") in
  plt_savefig plot_path fig;;
  mret plot_path.

(** app.py, lines 84-117 *)
Definition index (request : request) : M response :=
  match method request with
  | POST =>
      match multidict_get (lit "audio_file") (files request) with
      | None => mret (Plain (lit "No file part"))
      | Some file =>
          if decide (filename file = []) then mret (Plain (lit "No selected file"))
          else
            unique_name ← generate_unique_name;
            let file_path :=
              os_path_join UPLOAD_FOLDER (unique_name ++ lit "_" ++ filename file) in
            file_save file file_path;;
            text ← transcribe_audio_to_text file_path;
            prosody_plot_path ← prosody_analysis file_path unique_name;
            let words := split text in
            let phonetic_list := phonetic_transcription <$> words in
            let phonetic := join (lit " ") phonetic_list in
            let transcription_path :=
              os_path_join OUTPUT_FOLDER (unique_name ++ lit ".txt") in
            fs_write transcription_path
              (Text (lit "Transcribed Text:" ++ [10] ++ text ++ [10; 10]
                     ++ lit "Phonetic Transcription:" ++ [10] ++ phonetic));;
            mret (render_template (lit "index.html")
                    (Some {| ctx_text := text;
                             ctx_phonetic := phonetic;
                             ctx_plot_url :=
                               url_for (lit "static")
                                 (unique_name ++ lit "_prosody.png");
                             ctx_download_url :=
                               url_for (lit "download_file")
                                 (unique_name ++ lit ".txt") |}))
      end
  | _ => mret (render_template (lit "index.html") None)
  end.

End App.

(** What the speech service does with the contents of a file: the
    recording step or the recognition step raises [e], or both return
    and the recognised text is [text]. *)
Definition service_raises `{Externals} (d : file_data) (e : exn) : Prop :=
  sr_record d = Raise e
  ∨ ∃ audio, sr_record d = Ok audio ∧ recognize_google audio = Raise e.

Definition service_returns `{Externals} (d : file_data) (text : pystr) : Prop :=
  ∃ audio, sr_record d = Ok audio ∧ recognize_google audio = Ok text.

(** ** The download route

    app.py, lines 119-121.  The rule ['/download/<filename>'] uses
    Flask's default converter, which matches a non-empty segment without
    a slash; [routable] is that precondition.  [send_file] is kept
    symbolic: the path it opens and what it found there.  Paths are
    those of the process, as everywhere in this file (the application
    runs in its own directory). *)

Definition routable (filename : pystr) : Prop :=
  filename ≠ [] ∧ 47 ∉ filename.

Record sent_file := {
  sent_path : pystr;
  sent_body : file_data;
  as_attachment : bool
}.

(** [send_file(path, as_attachment=True)] *)
Definition send_file (path : pystr) (attach : bool) : M sent_file :=
  data ← fs_read path;
  mret {| sent_path := path; sent_body := data; as_attachment := attach |}.

Definition download_file (filename : pystr) : M sent_file :=
  send_file (os_path_join OUTPUT_FOLDER filename) true.

(** An exception that [transcribe_audio_to_text] has no handler for. *)
Definition unhandled (e : exn) : Prop :=
  e ≠ UnknownValueError ∧ ∀ msg, e ≠ RequestError msg.

(** ** Reading a timestamp back

    Used to state what the timestamp of a job name distinguishes. *)

Fixpoint codes_uint (s : pystr) : Decimal.uint :=
  match s with
  | [] => Decimal.Nil
  | c :: s' =>
      let u := codes_uint s' in
      if c =? 49 then Decimal.D1 u else if c =? 50 then Decimal.D2 u
      else if c =? 51 then Decimal.D3 u else if c =? 52 then Decimal.D4 u
      else if c =? 53 then Decimal.D5 u else if c =? 54 then Decimal.D6 u
      else if c =? 55 then Decimal.D7 u else if c =? 56 then Decimal.D8 u
      else if c =? 57 then Decimal.D9 u else Decimal.D0 u
  end.

Definition undec (s : pystr) : N := N.of_uint (codes_uint s).

(** [P] holds of the [count] numbers from [start] on. *)
Fixpoint all_from (P : N → bool) (start : N) (count : nat) : bool :=
  match count with
  | O => true
  | S count' => P start && all_from P (N.succ start) count'
  end.

(** The ranges [datetime] enforces on its fields. *)
Definition valid_datetime (d : datetime) : Prop :=
  1 ≤ year d ≤ 9999 ∧ 1 ≤ month d ≤ 12 ∧ 1 ≤ day d ≤ 31
  ∧ hour d ≤ 23 ∧ minute d ≤ 59 ∧ second d ≤ 59 ∧ microsecond d ≤ 999999.

(** Two instants within the same second of the wall clock. *)
Definition same_second (d1 d2 : datetime) : Prop :=
  year d1 = year d2 ∧ month d1 = month d2 ∧ day d1 = day d2
  ∧ hour d1 = hour d2 ∧ minute d1 = minute d2 ∧ second d1 = second d2.

(** ** A concrete environment

    A small dictionary, a recogniser that answers by the first byte of
    the recording, and an analyser whose pitch track has unvoiced
    frames and is longer than its intensity track. *)

Definition f64 (n : Z) : float64 := binary_normalize 53 1024 n 0 false.

Definition demo_phones (word : pystr) : list pystr :=
  if decide (word = lit "hello") then [lit "HH AH0 L OW1"; lit "HH EH0 L OW1"]
  else if decide (word = lit "world") then [lit "W ER1 L D"]
  else if decide (word = lit "the") then [lit "DH AH0"; lit "DH AH1"; lit "DH IY0"]
  else if decide (word = lit "not") then [lit "N AA1 T"]
  else [].

Definition demo_record (d : file_data) : result (list N) :=
  match d with
  | Bytes b => Ok b
  | Text _ => Raise (LibraryError (lit "not an audio file"))
  end.

Definition demo_recognize (audio : list N) : result pystr :=
  match audio with
  | [] => Raise UnknownValueError
  | 0 :: _ => Raise UnknownValueError
  | 1 :: _ => Raise (RequestError (lit "recognition connection failed"))
  | 2 :: _ => Ok [32; 9; 10]
  | 3 :: _ => Ok (lit "hello world")
  | _ => Ok (lit "hello  zzz")
  end.

Definition demo_pitch (snd : list N) : result Pitch :=
  Ok {| frequency := [f64 0; f64 220; f64 0; f64 231; f64 225; f64 0; f64 226; f64 224; f64 222];
        pitch_xs := [f64 1; f64 2; f64 3; f64 4; f64 5; f64 6; f64 7; f64 8; f64 9] |}.

Definition demo_intensity (snd : list N) : result Intensity :=
  Ok {| values := [[f64 60; f64 61; f64 62; f64 63]];
        intensity_xs := [f64 1; f64 2; f64 3; f64 4] |}.

(** A stand-in for the PNG encoder: one byte per axes, the number of
    points plotted there. *)
Definition demo_png (fig : figure) : list N :=
  (λ ax, N.of_nat (sum_list ((λ l, length (xdata l)) <$> lines ax))) <$> all_axes fig.

(** The directories [uploads], [outputs] and [static] exist and hold no
    directory of their own. *)
Definition demo_creatable (path : pystr) : bool :=
  (bool_decide (take 8 path = lit "uploads/") && bool_decide (47 ∉ drop 8 path))
  || (bool_decide (take 8 path = lit "outputs/") && bool_decide (47 ∉ drop 8 path))
  || (bool_decide (take 7 path = lit "static/") && bool_decide (47 ∉ drop 7 path)).

Definition demo : Externals := {|
  phones_for_word := demo_phones;
  AudioData := list N;
  sr_record := demo_record;
  recognize_google := demo_recognize;
  Sound := list N;
  parselmouth_Sound := demo_record;
  to_pitch := demo_pitch;
  to_intensity := demo_intensity;
  png_of_figure := demo_png;
  creatable := demo_creatable
|}.

Definition demo_world : world :=
  {| fs := ∅;
     clock := {| year := 2024; month := 3; day := 7;
                 hour := 9; minute := 5; second := 1; microsecond := 123 |};
     entropy := λ i, N.of_nat (i * 37 + 5);
     drawn := 0 |}.

(** The same dictionary and analyser behind a speech service that
    cannot be reached. *)
Definition demo_offline : Externals := {|
  phones_for_word := demo_phones;
  AudioData := list N;
  sr_record := demo_record;
  recognize_google := λ _, Raise (RequestError (lit "recognition connection failed"));
  Sound := list N;
  parselmouth_Sound := demo_record;
  to_pitch := demo_pitch;
  to_intensity := demo_intensity;
  png_of_figure := demo_png;
  creatable := demo_creatable
|}.

(** A world that holds one recording. *)
Definition demo_clip (first_byte : N) : world :=
  set_fs {[ lit "clip.wav" := Bytes [first_byte; 7; 7] ]} demo_world.

Definition demo_upload (first_byte : N) : request :=
  {| method := POST;
     files := [(lit "audio_file",
                {| filename := lit "a.wav"; stream := [first_byte; 7; 7] |})] |}.



(** An environment in which every frame of the recording is unvoiced. *)
Definition demo_silence : Externals := {|
  phones_for_word := demo_phones;
  AudioData := list N;
  sr_record := demo_record;
  recognize_google := demo_recognize;
  Sound := list N;
  parselmouth_Sound := demo_record;
  to_pitch := λ _, Ok {| frequency := [f64 0; f64 0; f64 0];
                         pitch_xs := [f64 1; f64 2; f64 3] |};
  to_intensity := demo_intensity;
  png_of_figure := demo_png;
  creatable := demo_creatable
|}.


(** * Properties *)

(** ** Strings and digits *)

Lemma zfill_length w s : (w ≤ length (zfill w s))%nat.
Proof. unfold zfill. rewrite length_app, length_replicate. lia. Qed.

Lemma zfill_Forall (P : N → Prop) w s : P 48 → Forall P s → Forall P (zfill w s).
Proof.
  intros H0 Hs. unfold zfill. apply Forall_app. split; [|done].
  by apply Forall_replicate.
Qed.

Lemma hex_codes_digits u : Forall (λ c, is_hex_digit c = true) (hex_codes u).
Proof. induction u; simpl; constructor; done. Qed.

Lemma uint_codes_digits u : Forall (λ c, is_dec_digit c = true) (uint_codes u).
Proof. induction u; simpl; constructor; done. Qed.

Lemma dec_digits w n : Forall (λ c, is_dec_digit c = true) (zfill w (dec n)).
Proof. apply zfill_Forall; [done|]. apply uint_codes_digits. Qed.

(** The timestamp opens with a digit of the year. *)
Lemma strftime_head d :
  ∃ c rest, strftime_Ymd_HMS d = c :: rest ∧ is_dec_digit c = true.
Proof.
  unfold strftime_Ymd_HMS.
  pose proof (zfill_length 4 (dec (year d))) as Hlen.
  pose proof (dec_digits 4 (year d)) as Hdig.
  destruct (zfill 4 (dec (year d))) as [|c rest]; simpl in Hlen; [lia|].
  exists c, (rest ++ zfill 2 (dec (month d)) ++ zfill 2 (dec (day d)) ++ lit "_" ++
             zfill 2 (dec (hour d)) ++ zfill 2 (dec (minute d)) ++ zfill 2 (dec (second d))).
  split; [done|]. by inversion Hdig.
Qed.

(** [os.path.join] of a directory name and a relative name. *)
Lemma os_path_join_relative a c rest :
  c ≠ 47 → a ≠ [] → endswith_char 47 a = false →
  os_path_join a (c :: rest) = a ++ [47] ++ c :: rest.
Proof.
  intros Hc Ha Hend. unfold os_path_join. simpl.
  destruct (N.eqb_spec c 47) as [->|_]; [done|].
  rewrite Hend. by rewrite bool_decide_eq_false_2.
Qed.

(** ** [str.split] *)

Lemma split_go_words cur s :
  Forall (λ c, isspace c = false) cur →
  Forall (λ word, word ≠ [] ∧ Forall (λ c, isspace c = false) word) (split_go cur s).
Proof.
  revert cur. induction s as [|c s IH]; intros cur Hcur; simpl.
  - destruct cur; [constructor|]. constructor; [by split|constructor].
  - destruct (isspace c) eqn:Hc.
    + destruct cur as [|c' cur'].
      * by apply IH.
      * constructor; [by split|]. by apply IH.
    + apply IH. apply Forall_app. split; [done|]. by constructor.
Qed.

(** Every word [split] yields is non-empty and free of whitespace. *)
Lemma split_words s :
  Forall (λ word, word ≠ [] ∧ Forall (λ c, isspace c = false) word) (split s).
Proof. by apply split_go_words. Qed.

(** A text of whitespace only has no words. *)
Lemma split_whitespace s : Forall (λ c, isspace c = true) s → split s = [].
Proof.
  unfold split. induction 1 as [|c s Hc _ IH]; simpl; [done|]. by rewrite Hc.
Qed.

(** [split] undoes [' '.join] on words. *)
Lemma split_go_word cur word s :
  Forall (λ c, isspace c = false) word →
  split_go cur (word ++ s) = split_go (cur ++ word) s.
Proof.
  intros Hword. revert cur.
  induction Hword as [|c word Hc _ IH]; intros cur; simpl.
  - by rewrite app_nil_r.
  - rewrite Hc, IH. by rewrite <- (assoc_L (++)).
Qed.

Lemma join_cons sep p q rest :
  join sep (p :: q :: rest) = p ++ sep ++ join sep (q :: rest).
Proof. done. Qed.

Lemma split_go_join cur words :
  Forall (λ word, word ≠ [] ∧ Forall (λ c, isspace c = false) word) words →
  ∀ first, Forall (λ c, isspace c = false) first → cur ++ first ≠ [] →
  split_go cur (join (lit " ") (first :: words)) = (cur ++ first) :: words.
Proof.
  intros Hwords. revert cur.
  induction Hwords as [|word words [Hne Hword] _ IH]; intros cur first Hfirst Hcur.
  - cbn [join]. rewrite <- (app_nil_r first) at 1.
    rewrite split_go_word by done. simpl. by destruct (cur ++ first).
  - rewrite join_cons, split_go_word by done.
    change (lit " " ++ join (lit " ") (word :: words))
      with (32 :: join (lit " ") (word :: words)).
    cbn [split_go]. change (isspace 32) with true. cbv iota.
    rewrite (IH [] word Hword) by (by destruct word).
    by destruct (cur ++ first).
Qed.

Lemma split_join words :
  Forall (λ word, word ≠ [] ∧ Forall (λ c, isspace c = false) word) words →
  split (join (lit " ") words) = words.
Proof.
  destruct 1 as [|word words [Hne Hword] Hwords]; [done|].
  unfold split. rewrite (split_go_join [] words Hwords word Hword); [done|].
  by destruct word.
Qed.

(** ** Timestamps *)

Lemma codes_uint_of u : codes_uint (uint_codes u) = u.
Proof. induction u; simpl; by f_equal. Qed.

Lemma undec_zfill w n : undec (zfill w (dec n)) = n.
Proof.
  unfold undec, zfill, dec.
  induction (w - length (uint_codes (N.to_uint n)))%nat as [|k IH]; simpl.
  - rewrite codes_uint_of. apply DecimalN.Unsigned.of_to.
  - exact IH.
Qed.

Lemma all_from_spec P start count n :
  all_from P start count = true →
  start ≤ n < start + N.of_nat count → P n = true.
Proof.
  revert start. induction count as [|count IH]; intros start; simpl; [lia|].
  intros [HP Hrest]%andb_prop Hn.
  destruct (decide (n = start)) as [->|Hne]; [done|].
  apply (IH (N.succ start)); [done|lia].
Qed.

Lemma zfill2_length n : n < 100 → length (zfill 2 (dec n)) = 2%nat.
Proof.
  intros Hn. apply Nat.eqb_eq.
  apply (all_from_spec (λ n, length (zfill 2 (dec n)) =? 2)%nat 0 (N.to_nat 100));
    [by vm_compute|lia].
Qed.

Lemma zfill4_length n : n < 10000 → length (zfill 4 (dec n)) = 4%nat.
Proof.
  intros Hn. apply Nat.eqb_eq.
  apply (all_from_spec (λ n, length (zfill 4 (dec n)) =? 4)%nat 0 (N.to_nat 10000));
    [by vm_compute|lia].
Qed.

(** The timestamp tells two instants apart exactly when they lie in
    different seconds. *)
Lemma strftime_resolution d1 d2 :
  valid_datetime d1 → valid_datetime d2 →
  strftime_Ymd_HMS d1 = strftime_Ymd_HMS d2 ↔ same_second d1 d2.
Proof.
  intros (Hy1 & Hm1 & Hd1 & HH1 & HM1 & HS1 & _) (Hy2 & Hm2 & Hd2 & HH2 & HM2 & HS2 & _).
  unfold strftime_Ymd_HMS, same_second. split.
  - intros Heq.
    apply app_inj_1 in Heq as [Hy Heq]; [|rewrite !zfill4_length; lia].
    apply app_inj_1 in Heq as [Hm Heq]; [|rewrite !zfill2_length; lia].
    apply app_inj_1 in Heq as [Hd Heq]; [|rewrite !zfill2_length; lia].
    apply app_inj_1 in Heq as [_ Heq]; [|done].
    apply app_inj_1 in Heq as [HH Heq]; [|rewrite !zfill2_length; lia].
    apply app_inj_1 in Heq as [HM HS]; [|rewrite !zfill2_length; lia].
    repeat split.
    + by rewrite <- (undec_zfill 4 (year d1)), Hy, undec_zfill.
    + by rewrite <- (undec_zfill 2 (month d1)), Hm, undec_zfill.
    + by rewrite <- (undec_zfill 2 (day d1)), Hd, undec_zfill.
    + by rewrite <- (undec_zfill 2 (hour d1)), HH, undec_zfill.
    + by rewrite <- (undec_zfill 2 (minute d1)), HM, undec_zfill.
    + by rewrite <- (undec_zfill 2 (second d1)), HS, undec_zfill.
  - intros (-> & -> & -> & -> & -> & ->). done.
Qed.

(** ** The job name *)

Lemma generate_unique_name_eq w :
  generate_unique_name w
  = (Ok (strftime_Ymd_HMS (clock w) ++ lit "_"
         ++ take 8 (zfill 32 (hex (uuid_int_v4 (pending 16 w))))),
     consume 16 w).
Proof. done. Qed.

Lemma uuid_suffix_length b : length (take 8 (zfill 32 (hex b))) = 8%nat.
Proof. rewrite length_take. pose proof (zfill_length 32 (hex b)). lia. Qed.

Lemma uuid_suffix_hex b :
  Forall (λ c, is_hex_digit c = true) (take 8 (zfill 32 (hex b))).
Proof. apply Forall_take, zfill_Forall; [done|]. apply hex_codes_digits. Qed.

(** C6: [generate_unique_name] takes no argument; it returns the
    timestamp of the wall clock, an underscore, and a suffix.  The
    timestamp has the resolution of one second: for clocks in the range
    of [datetime] it is the same exactly when the instants lie in the
    same second.  The suffix is the first 8 characters of the
    hexadecimal form of a fresh version-4 UUID made from 16 bytes of
    the entropy source: 8 characters, each a hexadecimal digit.
    Nothing but the 16 bytes drawn changes in the world. *)
Theorem generate_unique_name_shape (w : world) :
  ∃ timestamp suffix,
    generate_unique_name w = (Ok (timestamp ++ lit "_" ++ suffix), consume 16 w)
    ∧ timestamp = strftime_Ymd_HMS (clock w)
    ∧ (∀ d, valid_datetime d → valid_datetime (clock w) →
            strftime_Ymd_HMS d = timestamp ↔ same_second d (clock w))
    ∧ suffix = take 8 (zfill 32 (hex (uuid_int_v4 (pending 16 w))))
    ∧ length suffix = 8%nat
    ∧ Forall (λ c, is_hex_digit c = true) suffix.
Proof.
  eexists _, _. split; [apply generate_unique_name_eq|].
  split; [done|]. split; [|split; [done|split]].
  - intros d Hd Hw. by apply strftime_resolution.
  - apply uuid_suffix_length.
  - apply uuid_suffix_hex.
Qed.

Lemma generate_unique_name_shape_witness :
  ∃ timestamp suffix,
    generate_unique_name demo_world
    = (Ok (timestamp ++ lit "_" ++ suffix), consume 16 demo_world)
    ∧ timestamp = lit "20240307_090501"
    ∧ suffix = lit "052a4f74"
    ∧ strftime_Ymd_HMS {| year := 2024; month := 3; day := 7;
                          hour := 9; minute := 5; second := 1;
                          microsecond := 999999 |} = timestamp
    ∧ strftime_Ymd_HMS {| year := 2024; month := 3; day := 7;
                          hour := 9; minute := 5; second := 2;
                          microsecond := 123 |} ≠ timestamp.
Proof.
  destruct (generate_unique_name_shape demo_world)
    as (timestamp & suffix & Hrun & Hts & Hres & Hsuf & _).
  assert (∀ s us, s ≤ 59 → us ≤ 999999 →
            valid_datetime {| year := 2024; month := 3; day := 7;
                              hour := 9; minute := 5; second := s;
                              microsecond := us |}) as Hvalid
    by (intros s us Hs Hus; unfold valid_datetime; simpl; lia).
  exists timestamp, suffix. split; [exact Hrun|].
  split; [rewrite Hts; vm_compute; reflexivity|].
  split; [rewrite Hsuf; vm_compute; reflexivity|].
  split.
  - apply Hres; [apply Hvalid; lia | apply (Hvalid 1 123); lia |].
    repeat split.
  - intros Heq. apply Hres in Heq; [|apply Hvalid; lia | apply (Hvalid 1 123); lia].
    destruct Heq as (_ & _ & _ & _ & _ & Hsec). discriminate Hsec.
Defined.

(** ** Monadic steps *)

Lemma bind_Ok {A B} (m : M A) (k : A → M B) w b w' :
  (m ≫= k) w = (Ok b, w') →
  ∃ a w1, m w = (Ok a, w1) ∧ k a w1 = (Ok b, w').
Proof.
  unfold mbind, M_bind, bind. destruct (m w) as [[a|e] w1]; [|done].
  intros Hk. by exists a, w1.
Qed.

Lemma Ok_pair_inv {A} (a b : A) (w w' : world) :
  (Ok a, w) = (Ok b, w') → a = b ∧ w = w'.
Proof. by intros [= -> ->]. Qed.

Lemma lift_Ok {A} (r : result A) w a w' :
  lift r w = (Ok a, w') → r = Ok a ∧ w' = w.
Proof. unfold lift. by intros [= -> ->]. Qed.

Lemma mret_Ok {A} (a b : A) w w' :
  (mret a : M A) w = (Ok b, w') → b = a ∧ w' = w.
Proof. unfold mret, M_ret, ret. by intros [= -> ->]. Qed.

Ltac inv_bind H :=
  let a := fresh "a" in
  let w1 := fresh "w" in
  let H1 := fresh "Hstep" in
  apply bind_Ok in H as (a & w1 & H1 & H).

Section Properties.
Context `{E : Externals}.

(** ** Phoneme lookup *)

(** C3: [phonetic_transcription] returns the first transcription the
    dictionary lists for the word when it lists at least one, and the
    fixed sentinel ["No transcription found"] when it lists none. *)
Theorem phonetic_transcription_lookup (word : pystr) :
  (∀ p rest, phones_for_word word = p :: rest →
             phonetic_transcription word = p)
  ∧ (phones_for_word word = [] →
     phonetic_transcription word = lit "No transcription found").
Proof.
  unfold phonetic_transcription. split.
  - by intros p rest ->.
  - by intros ->.
Qed.

(** Either way the result is the head of the listing, with the
    sentinel as the default. *)
Lemma phonetic_transcription_head word :
  phonetic_transcription word
  = default (lit "No transcription found") (head (phones_for_word word)).
Proof. unfold phonetic_transcription. by destruct (phones_for_word word). Qed.

(** ** Transcription *)

Lemma transcribe_world path w r w' :
  transcribe_audio_to_text path w = (r, w') → w' = w.
Proof.
  unfold transcribe_audio_to_text, try_except, mbind, M_bind, bind, fs_read, lift,
    mret, M_ret, ret.
  destruct (fs w !! path) as [d|]; [|by intros [= _ ->]].
  destruct (sr_record d) as [a|e].
  - destruct (recognize_google a) as [t|e]; [by intros [= _ ->]|].
    destruct e; by intros [= _ ->].
  - destruct e; by intros [= _ ->].
Qed.

Lemma transcribe_recognized path w d audio :
  fs w !! path = Some d → sr_record d = Ok audio →
  transcribe_audio_to_text path w
  = match recognize_google audio with
    | Ok text => (Ok text, w)
    | Raise UnknownValueError => (Ok (lit "Could not understand the audio."), w)
    | Raise (RequestError msg) => (Ok (lit "Error with the API: " ++ msg), w)
    | Raise e => (Raise e, w)
    end.
Proof.
  intros Hd Ha.
  unfold transcribe_audio_to_text, try_except, mbind, M_bind, bind, fs_read, lift,
    mret, M_ret, ret.
  rewrite Hd, Ha. destruct (recognize_google audio) as [t|[]]; done.
Qed.


(** C2, as the code has it: when the speech service raises
    [UnknownValueError] on the contents of the file,
    [transcribe_audio_to_text] does not raise but returns the fixed
    string ["Could not understand the audio."]; when it raises
    [RequestError] the function returns ["Error with the API: "]
    followed by the message of the error.  Both come back as the value
    of the call, the way a recognised text does, and the world is
    left as it was. *)
Theorem transcribe_failure_as_text path w d :
  fs w !! path = Some d →
  (service_raises d UnknownValueError →
     transcribe_audio_to_text path w
     = (Ok (lit "Could not understand the audio."), w))
  ∧ (∀ msg, service_raises d (RequestError msg) →
       transcribe_audio_to_text path w
       = (Ok (lit "Error with the API: " ++ msg), w))
  ∧ (∀ text, service_returns d text →
       transcribe_audio_to_text path w = (Ok text, w)).
Proof.
  intros Hd. repeat split.
  - intros [Hrec|(audio & Hrec & Hgoogle)].
    + unfold transcribe_audio_to_text, try_except, mbind, M_bind, bind, fs_read, lift.
      by rewrite Hd, Hrec.
    + by rewrite (transcribe_recognized path w d audio), Hgoogle.
  - intros msg [Hrec|(audio & Hrec & Hgoogle)].
    + unfold transcribe_audio_to_text, try_except, mbind, M_bind, bind, fs_read, lift.
      by rewrite Hd, Hrec.
    + by rewrite (transcribe_recognized path w d audio), Hgoogle.
  - intros text (audio & Hrec & Hgoogle).
    by rewrite (transcribe_recognized path w d audio), Hgoogle.
Qed.

(** ** Requests without an upload *)

Lemma multidict_get_None {V} key (d : list (pystr * V)) :
  key ∉ d.*1 → multidict_get key d = None.
Proof.
  induction d as [|[k v] d IH]; simpl; [done|].
  rewrite not_elem_of_cons. intros [Hne Hrest].
  destruct (decide (k = key)) as [->|_]; [done|]. by apply IH.
Qed.

Lemma multidict_get_Some {V} key (d : list (pystr * V)) v :
  multidict_get key d = Some v → (key, v) ∈ d.
Proof.
  induction d as [|[k v'] d IH]; simpl; [done|].
  destruct (decide (k = key)) as [->|_].
  - intros [= ->]. apply list_elem_of_here.
  - intros Hget. apply list_elem_of_further. by apply IH.
Qed.

(** C4: a POST whose files lack the field [audio_file] is answered
    with the text ["No file part"], and one whose [audio_file] has an
    empty filename with ["No selected file"].  In both cases the world
    is returned as it was received: no entropy is drawn for a job
    name and no file is created or changed. *)
Theorem index_without_upload (req : request) (w : world) :
  method req = POST →
  (lit "audio_file" ∉ (files req).*1 →
     index req w = (Ok (Plain (lit "No file part")), w))
  ∧ (∀ file, multidict_get (lit "audio_file") (files req) = Some file →
       filename file = [] →
       index req w = (Ok (Plain (lit "No selected file")), w)).
Proof.
  intros Hpost. unfold index. rewrite Hpost. split.
  - intros Hnone. by rewrite multidict_get_None.
  - intros file -> Hname. by rewrite decide_True.
Qed.

(** ** numpy arrays *)

(** Praat hands out the intensity as an array of one row; read column
    by column it is that row. *)
Lemma T_flatten_row {A} (row : list A) : T_flatten [row] = row.
Proof.
  unfold T_flatten, ncols, column. simpl.
  assert (∀ k, mjoin ((λ j, match row !! j with Some x => [x] | None => [] end)
                        <$> seq k (length row - k)) = drop k row) as Hgen.
  { intros k. remember (length row - k)%nat as m eqn:Hm. revert k Hm.
    induction m as [|m IH]; intros k Hm; simpl.
    - rewrite drop_ge by lia. done.
    - destruct (row !! k) as [x|] eqn:Hx.
      + rewrite (drop_S row x k Hx), IH by lia. done.
      + apply lookup_ge_None in Hx. lia. }
  specialize (Hgen 0%nat). rewrite Nat.sub_0_r, drop_0 in Hgen.
  exact Hgen.
Qed.

(** ** The voicing filter *)

Lemma gt0_length a : length (gt0 a) = length a.
Proof. unfold gt0. apply length_fmap. Qed.

Lemma mask_select_zip (times freqs : list float64) :
  length times = length freqs →
  zip (mask_select times (gt0 freqs)) (mask_select freqs (gt0 freqs))
  = filter (λ frame : float64 * float64, SFltb zero frame.2) (zip times freqs)
  ∧ length (mask_select times (gt0 freqs)) = length (mask_select freqs (gt0 freqs)).
Proof.
  revert times. induction freqs as [|f freqs IH]; intros [|t times] Hlen;
    simplify_eq/=; [done|].
  destruct (IH times Hlen) as [IHzip IHlen].
  rewrite filter_cons. simpl. destruct (SFltb zero f) eqn:Hf; simpl.
  - split; by f_equal.
  - done.
Qed.

Lemma filter_ext_elem {A} (P Q : A → Prop)
    `{!∀ x, Decision (P x)} `{!∀ x, Decision (Q x)} (l : list A) :
  (∀ x, x ∈ l → P x ↔ Q x) → filter P l = filter Q l.
Proof.
  induction l as [|x l IH]; intros HPQ; [done|].
  rewrite !filter_cons.
  rewrite IH by (intros y Hy; apply HPQ; by apply list_elem_of_further).
  pose proof (HPQ x (list_elem_of_here x l)) as Hx.
  destruct (decide (P x)), (decide (Q x)); tauto.
Qed.

(** Away from NaN, "not above zero" is "at most zero". *)
Lemma not_gt0_le0 (f : float64) : f ≠ S754_nan → SFltb zero f = negb (SFleb f zero).
Proof. destruct f as [[]|[]| |[] m e]; done. Qed.

(** C8: the voicing filter keeps the frames whose frequency is above
    zero, with the same mask for the pitch values and the pitch
    times: what is left are the (time, frequency) frames, in order,
    that pass the test.  On a contour without NaN (Praat reports an
    unvoiced frame as frequency 0) the frames that go are exactly
    those whose frequency is at most zero. *)
Theorem voicing_filter (pitch : Pitch) :
  length (pitch_xs pitch) = length (frequency pitch) →
  ∃ pitch_times pitch_values,
    voiced pitch = Ok (pitch_times, pitch_values)
    ∧ length pitch_times = length pitch_values
    ∧ zip pitch_times pitch_values
      = filter (λ frame : float64 * float64, SFltb zero frame.2)
          (zip (pitch_xs pitch) (frequency pitch))
    ∧ (Forall (λ f, f ≠ S754_nan) (frequency pitch) →
       zip pitch_times pitch_values
       = filter (λ frame : float64 * float64, ¬ SFleb frame.2 zero)
           (zip (pitch_xs pitch) (frequency pitch))).
Proof.
  intros Hlen. unfold voiced, bool_index.
  rewrite !decide_True by (by rewrite gt0_length).
  destruct (mask_select_zip _ _ Hlen) as [Hzip Hlens].
  eexists _, _. split; [done|]. split; [done|]. split; [done|].
  intros Hnan. rewrite Hzip. apply filter_ext_elem.
  intros [t f] Hin. simpl.
  assert (f ≠ S754_nan) as Hf.
  { rewrite Forall_forall in Hnan. apply Hnan. by eapply elem_of_zip_r. }
  rewrite (not_gt0_le0 f Hf). destruct (SFleb f zero); simpl; tauto.
Qed.

(** With times and frequencies of different length numpy refuses the
    mask. *)
Lemma voiced_mismatch (pitch : Pitch) :
  length (pitch_xs pitch) ≠ length (frequency pitch) →
  voiced pitch = Raise IndexError.
Proof.
  intros Hlen. unfold voiced, bool_index.
  rewrite decide_True by (by rewrite gt0_length).
  by rewrite decide_False by (by rewrite gt0_length).
Qed.

End Properties.

Lemma phonetic_transcription_lookup_witness :
  @phonetic_transcription demo (lit "hello") = lit "HH AH0 L OW1"
  ∧ @phonetic_transcription demo (lit "zzz") = lit "No transcription found".
Proof.
  split.
  - apply (proj1 (@phonetic_transcription_lookup demo (lit "hello")))
      with (rest := [lit "HH EH0 L OW1"]).
    vm_compute. reflexivity.
  - apply (proj2 (@phonetic_transcription_lookup demo (lit "zzz"))).
    vm_compute. reflexivity.
Defined.

Lemma transcribe_failure_as_text_witness :
  @transcribe_audio_to_text demo (lit "clip.wav") (demo_clip 0)
  = (Ok (lit "Could not understand the audio."), demo_clip 0)
  ∧ @transcribe_audio_to_text demo (lit "clip.wav") (demo_clip 1)
    = (Ok (lit "Error with the API: recognition connection failed"), demo_clip 1)
  ∧ @transcribe_audio_to_text demo (lit "clip.wav") (demo_clip 3)
    = (Ok (lit "hello world"), demo_clip 3).
Proof.
  assert (∀ b, fs (demo_clip b) !! lit "clip.wav" = Some (Bytes [b; 7; 7])) as Hclip
    by (intros b; apply lookup_singleton_eq).
  split; [|split].
  - apply (proj1 (@transcribe_failure_as_text demo _ _ _ (Hclip 0))).
    right. exists [0; 7; 7]. split; reflexivity.
  - apply (proj1 (proj2 (@transcribe_failure_as_text demo _ _ _ (Hclip 1)))).
    right. exists [1; 7; 7]. split; reflexivity.
  - apply (proj2 (proj2 (@transcribe_failure_as_text demo _ _ _ (Hclip 3)))).
    exists [3; 7; 7]. split; reflexivity.
Defined.

(** On a recording the service cannot interpret, the string returned
    is not ["could not understand audio"]: the wording, the capital and
    the full stop of the source's message differ from it. *)
Lemma transcribe_unknown_value_counterexample :
  @service_raises demo (Bytes [0; 7; 7]) UnknownValueError
  ∧ fs (demo_clip 0) !! lit "clip.wav" = Some (Bytes [0; 7; 7])
  ∧ (@transcribe_audio_to_text demo (lit "clip.wav") (demo_clip 0)).1
    ≠ Ok (lit "could not understand audio").
Proof.
  split; [|split].
  - right. exists [0; 7; 7]. split; vm_compute; reflexivity.
  - vm_compute. reflexivity.
  - vm_compute. discriminate.
Qed.

Lemma index_without_upload_witness :
  @index demo {| method := POST; files := [] |} demo_world
  = (Ok (Plain (lit "No file part")), demo_world)
  ∧ @index demo {| method := POST;
                   files := [(lit "audio_file", {| filename := []; stream := [1; 2] |})] |}
      demo_world
    = (Ok (Plain (lit "No selected file")), demo_world).
Proof.
  split.
  - apply (@index_without_upload demo); [reflexivity|]. vm_compute. inversion 1.
  - apply (proj2 (@index_without_upload demo
             {| method := POST;
                files := [(lit "audio_file", {| filename := []; stream := [1; 2] |})] |}
             demo_world eq_refl)
             {| filename := []; stream := [1; 2] |}); reflexivity.
Defined.

(** C9: [phonetic_transcription] is deterministic.  Two invocations on
    the same word, in any two environments whose dictionaries list the
    same transcriptions for it, return the same string, whatever else
    differs between them. *)
Theorem phonetic_transcription_deterministic (E1 E2 : Externals) (word : pystr) :
  @phones_for_word E1 word = @phones_for_word E2 word →
  @phonetic_transcription E1 word = @phonetic_transcription E2 word.
Proof.
  intros Hdict. unfold phonetic_transcription. by rewrite Hdict.
Qed.

Lemma phonetic_transcription_deterministic_witness :
  @phonetic_transcription demo (lit "world")
  = @phonetic_transcription demo_offline (lit "world")
  ∧ @phonetic_transcription demo (lit "zzz")
    = @phonetic_transcription demo_offline (lit "zzz").
Proof.
  split; apply phonetic_transcription_deterministic; reflexivity.
Defined.

Lemma voicing_filter_witness :
  ∃ pitch_times pitch_values,
    voiced {| frequency := [f64 0; f64 220; f64 0; f64 231];
              pitch_xs := [f64 1; f64 2; f64 3; f64 4] |}
    = Ok (pitch_times, pitch_values)
    ∧ zip pitch_times pitch_values = [(f64 2, f64 220); (f64 4, f64 231)].
Proof.
  destruct (voicing_filter {| frequency := [f64 0; f64 220; f64 0; f64 231];
                              pitch_xs := [f64 1; f64 2; f64 3; f64 4] |} eq_refl)
    as (pitch_times & pitch_values & Hrun & _ & Hzip & _).
  exists pitch_times, pitch_values. split; [exact Hrun|].
  rewrite Hzip. vm_compute. reflexivity.
Defined.

Section Pipeline.
Context `{E : Externals}.

(** ** Prosody *)

(** The two [plt.plot] calls go through when each pair of series
    agrees in length, and the figure then holds the two lines. *)
Lemma draw_Ok (pt pv it iv : list float64) :
  length pt = length pv → length it = length iv →
  ∃ fig, draw (pt, pv, it, iv) = Ok fig
    ∧ (λ ax, (position ax, lines ax)) <$> all_axes fig
      = [((2, 1, 2)%nat, [{| xdata := it; ydata := iv; color := lit "red" |}]);
         ((2, 1, 1)%nat, [{| xdata := pt; ydata := pv; color := lit "blue" |}])].
Proof.
  intros Hp Hi. unfold draw, plt_plot. simpl.
  rewrite !decide_True by done. eexists. split; reflexivity.
Qed.

(** ... and only then. *)
Lemma draw_mismatch (pt pv it iv : list float64) :
  length pt ≠ length pv ∨ length it ≠ length iv →
  draw (pt, pv, it, iv) = Raise ValueError.
Proof.
  intros Hne. unfold draw, plt_plot. simpl.
  destruct (decide (length pt = length pv)); [|done].
  destruct (decide (length it = length iv)); [|done]. tauto.
Qed.

(** The extraction goes through when the libraries deliver a pitch
    track with as many times as frequencies and an intensity track. *)
Lemma extracted_series_Ok sound pitch intensity :
  to_pitch sound = Ok pitch →
  length (pitch_xs pitch) = length (frequency pitch) →
  to_intensity sound = Ok intensity →
  ∃ pt pv, voiced pitch = Ok (pt, pv)
    ∧ extracted_series sound
      = Ok (pt, pv, intensity_xs intensity, T_flatten (values intensity)).
Proof.
  intros Hpitch Hlen Hint.
  destruct (voicing_filter pitch Hlen) as (pt & pv & Hv & _).
  exists pt, pv. split; [done|].
  unfold extracted_series. by rewrite Hpitch, Hv, Hint.
Qed.

(** C1: whenever the extraction of the four series succeeds, what
    [prosody_analysis] hands to the two [plt.plot] calls are the four
    series cut to the least of their four lengths; each of the four
    then has exactly that length, so neither call raises, and the
    figure that is saved holds these two lines. *)
Theorem prosody_series_equal_length path name w d sound
    (pitch_times pitch_values intensity_times intensity_values : list float64) :
  fs w !! path = Some d →
  parselmouth_Sound d = Ok sound →
  extracted_series sound
  = Ok (pitch_times, pitch_values, intensity_times, intensity_values) →
  let min_len :=
    (length pitch_times `min` (length pitch_values
       `min` (length intensity_times `min` length intensity_values)))%nat in
  let pt := take min_len pitch_times in
  let pv := take min_len pitch_values in
  let it := take min_len intensity_times in
  let iv := take min_len intensity_values in
  length pt = min_len ∧ length pv = min_len
  ∧ length it = min_len ∧ length iv = min_len
  ∧ ∃ fig,
      draw (pt, pv, it, iv) = Ok fig
      ∧ (λ ax, (position ax, lines ax)) <$> all_axes fig
        = [((2, 1, 2)%nat, [{| xdata := it; ydata := iv; color := lit "red" |}]);
           ((2, 1, 1)%nat, [{| xdata := pt; ydata := pv; color := lit "blue" |}])]
      ∧ prosody_analysis path name w
        = (let plot_path :=
             os_path_join (lit "static") (name ++ lit "_prosody.png") in
           plt_savefig plot_path fig;; mret plot_path) w.
Proof.
  intros Hd Hsound Hraw min_len pt pv it iv.
  assert (length pt = min_len ∧ length pv = min_len
          ∧ length it = min_len ∧ length iv = min_len) as (Hpt & Hpv & Hit & Hiv).
  { subst pt pv it iv. rewrite !length_take. lia. }
  repeat (split; [done|]).
  destruct (draw_Ok pt pv it iv) as (fig & Hdraw & Hlines); [congruence..|].
  exists fig. split; [done|]. split; [done|].
  unfold prosody_analysis, mbind, M_bind, bind, fs_read, lift.
  rewrite Hd, Hsound, Hraw. unfold truncate_series.
  fold min_len. fold pt pv it iv. by rewrite Hdraw.
Qed.

(** ** The upload handler *)

Lemma fs_write_Ok path d w u w' :
  fs_write path d w = (Ok u, w') →
  creatable path = true ∧ w' = set_fs (<[path := d]> (fs w)) w.
Proof. unfold fs_write. destruct (creatable path); [|done]. by intros [= _ <-]. Qed.

Lemma prosody_analysis_Ok path name w plot w' :
  prosody_analysis path name w = (Ok plot, w') →
  ∃ fig, plot = os_path_join (lit "static") (name ++ lit "_prosody.png")
    ∧ creatable plot = true
    ∧ w' = set_fs (<[plot := Bytes (png_of_figure fig)]> (fs w)) w.
Proof.
  unfold prosody_analysis. intros Hrun.
  inv_bind Hrun. inv_bind Hrun. inv_bind Hrun. inv_bind Hrun. inv_bind Hrun.
  apply mret_Ok in Hrun as [-> ->].
  unfold fs_read in Hstep. destruct (fs w !! path); [|done].
  injection Hstep as <- <-.
  apply lift_Ok in Hstep0 as [_ ->]. apply lift_Ok in Hstep1 as [_ ->].
  apply lift_Ok in Hstep2 as [_ ->].
  apply fs_write_Ok in Hstep3 as [Hcreat ->]. by exists a2.
Qed.

(** A job name never starts with a slash, so joining it to a
    directory keeps the directory. *)
Lemma generate_unique_name_Ok w unique_name w' :
  generate_unique_name w = (Ok unique_name, w') →
  w' = consume 16 w ∧ ∃ c rest, unique_name = c :: rest ∧ c ≠ 47.
Proof.
  rewrite generate_unique_name_eq. intros Heq.
  apply Ok_pair_inv in Heq as [Hn Hw]. split; [by symmetry|].
  destruct (strftime_head (clock w)) as (c & rest & Hts & Hc).
  rewrite Hts in Hn. eexists c, _.
  split; [rewrite <- Hn; apply eq_sym, app_comm_cons|].
  intros ->. discriminate Hc.
Qed.

Lemma job_path dir c rest tail :
  c ≠ 47 → dir ≠ [] → endswith_char 47 dir = false →
  os_path_join dir ((c :: rest) ++ tail) = dir ++ [47] ++ (c :: rest) ++ tail.
Proof. intros. rewrite <- app_comm_cons. by apply os_path_join_relative. Qed.

(** What a POST with a named upload has done when it returns a page. *)
Lemma index_post_Ok req w resp w' file :
  method req = POST →
  multidict_get (lit "audio_file") (files req) = Some file →
  filename file ≠ [] →
  index req w = (Ok resp, w') →
  ∃ unique_name text fig,
    generate_unique_name w = (Ok unique_name, consume 16 w)
    ∧ let upload := lit "uploads/" ++ unique_name ++ lit "_" ++ filename file in
      let plot := lit "static/" ++ unique_name ++ lit "_prosody.png" in
      let out := lit "outputs/" ++ unique_name ++ lit ".txt" in
      let w1 := set_fs (<[upload := Bytes (stream file)]> (fs w)) (consume 16 w) in
      let phonetic := join (lit " ") (phonetic_transcription <$> split text) in
      transcribe_audio_to_text upload w1 = (Ok text, w1)
      ∧ prosody_analysis upload unique_name w1
        = (Ok plot, set_fs (<[plot := Bytes (png_of_figure fig)]> (fs w1)) w1)
      ∧ resp = render_template (lit "index.html")
                 (Some {| ctx_text := text;
                          ctx_phonetic := phonetic;
                          ctx_plot_url :=
                            url_for (lit "static") (unique_name ++ lit "_prosody.png");
                          ctx_download_url :=
                            url_for (lit "download_file") (unique_name ++ lit ".txt") |})
      ∧ w' = set_fs
               (<[out := Text (lit "Transcribed Text:" ++ [10] ++ text ++ [10; 10]
                               ++ lit "Phonetic Transcription:" ++ [10] ++ phonetic)]>
                  (<[plot := Bytes (png_of_figure fig)]>
                     (<[upload := Bytes (stream file)]> (fs w))))
               (consume 16 w).
Proof.
  intros Hpost Hfile Hname. unfold index.
  rewrite Hpost, Hfile, decide_False by done. intros Hrun.
  inv_bind Hrun. pose proof Hstep as Hname_eq.
  apply generate_unique_name_Ok in Hstep as (-> & c & rest & -> & Hc).
  unfold UPLOAD_FOLDER, OUTPUT_FOLDER in Hrun.
  rewrite !(job_path _ c rest) in Hrun by done.
  inv_bind Hrun. apply fs_write_Ok in Hstep as [_ ->].
  inv_bind Hrun. pose proof (transcribe_world _ _ _ _ Hstep) as ->.
  inv_bind Hrun. pose proof Hstep0 as Hpros.
  apply prosody_analysis_Ok in Hpros as (fig & Hplot & _ & ->).
  rewrite (job_path _ c rest) in Hplot by done. subst a1.
  inv_bind Hrun. apply fs_write_Ok in Hstep1 as [_ ->].
  apply mret_Ok in Hrun as [-> ->].
  exists (c :: rest), a0, fig. split; [exact Hname_eq|].
  repeat split; done.
Qed.


(** C7: an upload that is processed to the end leaves three files,
    all named after the one job name: the uploaded bytes at
    [uploads/<job>_<filename>], the chart at
    [static/<job>_prosody.png] and the transcript text at
    [outputs/<job>.txt]; nothing else in the file system changes. *)
Theorem index_artifact_paths req w resp w' file :
  method req = POST →
  multidict_get (lit "audio_file") (files req) = Some file →
  filename file ≠ [] →
  index req w = (Ok resp, w') →
  ∃ job_id transcript chart,
    generate_unique_name w = (Ok job_id, consume 16 w)
    ∧ fs w'
      = <[lit "outputs/" ++ job_id ++ lit ".txt" := Text transcript]>
          (<[lit "static/" ++ job_id ++ lit "_prosody.png" := Bytes chart]>
             (<[lit "uploads/" ++ job_id ++ lit "_" ++ filename file
                := Bytes (stream file)]> (fs w))).
Proof.
  intros Hpost Hfile Hname Hrun.
  destruct (index_post_Ok req w resp w' file Hpost Hfile Hname Hrun)
    as (unique_name & text & fig & Hid & _ & _ & _ & ->).
  by eexists unique_name, _, _.
Qed.

(** C10: the transcript file of a processed upload holds exactly
    ["Transcribed Text:\n" + t + "\n\nPhonetic Transcription:\n" + p],
    with [t] and [p] the transcript and the phonetic string of the
    page; for a transcript of whitespace only [p] is empty. *)
Theorem index_transcript_file req w resp w' file :
  method req = POST →
  multidict_get (lit "audio_file") (files req) = Some file →
  filename file ≠ [] →
  index req w = (Ok resp, w') →
  ∃ job_id page,
    generate_unique_name w = (Ok job_id, consume 16 w)
    ∧ resp = render_template (lit "index.html") (Some page)
    ∧ fs w' !! (lit "outputs/" ++ job_id ++ lit ".txt")
      = Some (Text (lit "Transcribed Text:" ++ [10] ++ ctx_text page ++ [10; 10]
                    ++ lit "Phonetic Transcription:" ++ [10] ++ ctx_phonetic page))
    ∧ (Forall (λ c, isspace c = true) (ctx_text page) → ctx_phonetic page = []).
Proof.
  intros Hpost Hfile Hname Hrun.
  destruct (index_post_Ok req w resp w' file Hpost Hfile Hname Hrun)
    as (unique_name & text & fig & Hid & _ & _ & -> & ->).
  eexists unique_name, _. split; [done|]. split; [done|]. split.
  - cbn [fs set_fs ctx_text ctx_phonetic]. apply lookup_insert_eq.
  - cbn [ctx_text ctx_phonetic]. intros Hspace.
    by rewrite (split_whitespace text Hspace).
Qed.

(** The converse of [index_post_Ok]: when the three paths can be
    created and the two analyses return, the handler returns the
    page. *)
Lemma index_post_run req w file unique_name text plot w2 :
  method req = POST →
  multidict_get (lit "audio_file") (files req) = Some file →
  filename file ≠ [] →
  generate_unique_name w = (Ok unique_name, consume 16 w) →
  let upload := lit "uploads/" ++ unique_name ++ lit "_" ++ filename file in
  let out := lit "outputs/" ++ unique_name ++ lit ".txt" in
  let w1 := set_fs (<[upload := Bytes (stream file)]> (fs w)) (consume 16 w) in
  creatable upload = true →
  transcribe_audio_to_text upload w1 = (Ok text, w1) →
  prosody_analysis upload unique_name w1 = (Ok plot, w2) →
  creatable out = true →
  ∃ resp w', index req w = (Ok resp, w').
Proof.
  intros Hpost Hfile Hname Hid upload out w1 Hup Htext Hpros Hout.
  unfold index. rewrite Hpost, Hfile, decide_False by done.
  unfold mbind, M_bind, bind. rewrite Hid.
  apply generate_unique_name_Ok in Hid as (_ & c & rest & -> & Hc).
  unfold UPLOAD_FOLDER, OUTPUT_FOLDER.
  rewrite !(job_path _ c rest) by done.
  change (lit "uploads" ++ [47] ++ (c :: rest) ++ lit "_" ++ filename file)
    with upload.
  change (lit "outputs" ++ [47] ++ (c :: rest) ++ lit ".txt") with out.
  unfold file_save, fs_write. rewrite Hup.
  change (fs (consume 16 w)) with (fs w). fold w1. cbv beta iota.
  rewrite Htext, Hpros, Hout. by eexists _, _.
Qed.

End Pipeline.

Lemma prosody_series_equal_length_witness :
  ∃ fig,
    draw (take 4 [f64 2; f64 4; f64 5; f64 7; f64 8; f64 9],
          take 4 [f64 220; f64 231; f64 225; f64 226; f64 224; f64 222],
          take 4 [f64 1; f64 2; f64 3; f64 4],
          take 4 [f64 60; f64 61; f64 62; f64 63]) = Ok fig
    ∧ @prosody_analysis demo (lit "clip.wav") (lit "job") (demo_clip 3)
      = (Ok (lit "static/job_prosody.png"),
         set_fs (<[lit "static/job_prosody.png" := Bytes (demo_png fig)]>
                   (fs (demo_clip 3))) (demo_clip 3)).
Proof.
  destruct (@prosody_series_equal_length demo (lit "clip.wav") (lit "job") (demo_clip 3)
              (Bytes [3; 7; 7]) [3; 7; 7]
              [f64 2; f64 4; f64 5; f64 7; f64 8; f64 9]
              [f64 220; f64 231; f64 225; f64 226; f64 224; f64 222]
              [f64 1; f64 2; f64 3; f64 4]
              [f64 60; f64 61; f64 62; f64 63])
    as (_ & _ & _ & _ & fig & Hdraw & _ & Hrun).
  - apply lookup_singleton_eq.
  - reflexivity.
  - vm_compute. reflexivity.
  - exists fig. split; [exact Hdraw|]. rewrite Hrun. reflexivity.
Defined.

(** The handler runs to the end on the three sample uploads. *)
Lemma demo_index_returns first_byte :
  first_byte = 0 ∨ first_byte = 2 ∨ first_byte = 3 →
  ∃ resp w', @index demo (demo_upload first_byte) demo_world = (Ok resp, w').
Proof.
  intros [->|[->| ->]]; eexists _, _; vm_compute; reflexivity.
Qed.

Lemma demo_job_name :
  generate_unique_name demo_world
  = (Ok (lit "20240307_090501_052a4f74"), consume 16 demo_world).
Proof. vm_compute. reflexivity. Qed.


Lemma index_artifact_paths_witness :
  ∃ resp w' transcript chart,
    @index demo (demo_upload 3) demo_world = (Ok resp, w')
    ∧ fs w'
      = <[lit "outputs/20240307_090501_052a4f74.txt" := Text transcript]>
          (<[lit "static/20240307_090501_052a4f74_prosody.png" := Bytes chart]>
             (<[lit "uploads/20240307_090501_052a4f74_a.wav" := Bytes [3; 7; 7]]> ∅)).
Proof.
  destruct (demo_index_returns 3) as (resp & w' & Hrun); [by right; right|].
  destruct (@index_artifact_paths demo (demo_upload 3) demo_world resp w'
              {| filename := lit "a.wav"; stream := [3; 7; 7] |}
              eq_refl eq_refl ltac:(discriminate) Hrun)
    as (job_id & transcript & chart & Hid & Hfs).
  exists resp, w', transcript, chart. split; [exact Hrun|].
  rewrite demo_job_name in Hid. apply Ok_pair_inv in Hid as [<- _].
  exact Hfs.
Defined.

Lemma index_transcript_file_witness :
  ∃ resp w' page,
    @index demo (demo_upload 2) demo_world = (Ok resp, w')
    ∧ resp = render_template (lit "index.html") (Some page)
    ∧ fs w' !! lit "outputs/20240307_090501_052a4f74.txt"
      = Some (Text (lit "Transcribed Text:" ++ [10] ++ ctx_text page ++ [10; 10]
                    ++ lit "Phonetic Transcription:" ++ [10] ++ ctx_phonetic page))
    ∧ ctx_text page = [32; 9; 10]
    ∧ ctx_phonetic page = [].
Proof.
  destruct (demo_index_returns 2) as (resp & w' & Hrun); [by right; left|].
  destruct (@index_transcript_file demo (demo_upload 2) demo_world resp w'
              {| filename := lit "a.wav"; stream := [2; 7; 7] |}
              eq_refl eq_refl ltac:(discriminate) Hrun)
    as (job_id & page & Hid & Hresp & Hfile & Hspace).
  exists resp, w', page. split; [exact Hrun|]. split; [exact Hresp|].
  rewrite demo_job_name in Hid. apply Ok_pair_inv in Hid as [<- _].
  split; [exact Hfile|].
  assert (ctx_text page = [32; 9; 10]) as Htext.
  { destruct (@index_post_Ok demo (demo_upload 2) demo_world resp w'
                {| filename := lit "a.wav"; stream := [2; 7; 7] |}
                eq_refl eq_refl ltac:(discriminate) Hrun)
      as (name & text & fig & Hname & Htext & _ & Hpage & _).
    cbv zeta in Htext.
    rewrite (@transcribe_recognized demo _ _ (Bytes [2; 7; 7]) [2; 7; 7]) in Htext;
      [|apply lookup_insert_eq|reflexivity].
    apply Ok_pair_inv in Htext as [<- _].
    rewrite Hpage in Hresp. by injection Hresp as <-. }
  split; [exact Htext|].
  apply Hspace. rewrite Htext. by repeat constructor.
Defined.

(** * Beyond the claims: failure paths, the download route, and what the
      handlers leave behind *)

Section Analyses.
Context `{E : Externals}.

(** ** Transcription: what gets through the handlers *)

Lemma transcribe_handled path w d :
  fs w !! path = Some d →
  (service_raises d UnknownValueError →
   transcribe_audio_to_text path w = (Ok (lit "Could not understand the audio."), w))
  ∧ (∀ msg, service_raises d (RequestError msg) →
     transcribe_audio_to_text path w = (Ok (lit "Error with the API: " ++ msg), w)).
Proof.
  intros Hd. split.
  - intros [Hrec|(audio & Hrec & Hgoogle)].
    + unfold transcribe_audio_to_text, try_except, mbind, M_bind, bind, fs_read, lift.
      by rewrite Hd, Hrec.
    + by rewrite (transcribe_recognized path w d audio), Hgoogle.
  - intros msg [Hrec|(audio & Hrec & Hgoogle)].
    + unfold transcribe_audio_to_text, try_except, mbind, M_bind, bind, fs_read, lift.
      by rewrite Hd, Hrec.
    + by rewrite (transcribe_recognized path w d audio), Hgoogle.
Qed.

(** X1: [transcribe_audio_to_text] raises [e] exactly when [e] is not one
    of the two exceptions it handles and either the file cannot be
    opened ([e] is then the [OSError] of that path) or the speech
    service raises [e] on its contents.  Whatever the outcome, the
    world is left as it was. *)
Theorem transcribe_raises_iff path w e :
  (∀ r w', transcribe_audio_to_text path w = (r, w') → w' = w)
  ∧ ((∃ w', transcribe_audio_to_text path w = (Raise e, w'))
     ↔ unhandled e
       ∧ ((fs w !! path = None ∧ e = OSError path)
          ∨ ∃ d, fs w !! path = Some d ∧ service_raises d e)).
Proof.
  split; [intros r w'; apply transcribe_world|].
  unfold transcribe_audio_to_text, try_except, mbind, M_bind, bind, fs_read, lift,
    mret, M_ret, ret, unhandled, service_raises.
  destruct (fs w !! path) as [d|] eqn:Hd.
  - destruct (sr_record d) as [audio|e1] eqn:Hrec.
    + destruct (recognize_google audio) as [text|e2] eqn:Hgoogle.
      * split; [by intros [w' [=]]|].
        intros (_ & [[[=] _]|(d' & [= <-] & [Hr|(a & Hr & Hg)])]); congruence.
      * split.
        -- intros [w' Hrun]. destruct e2; simplify_eq; (split; [done|]);
             right; exists d; (split; [done|]); right; by exists audio.
        -- intros ([Hu Hq] & [[[=] _]|(d' & [= <-] & [Hr|(a & Hr & Hg)])]);
             [congruence|].
           rewrite Hrec in Hr. injection Hr as <-.
           rewrite Hgoogle in Hg. injection Hg as <-. exists w.
           destruct e2; first [done | by destruct (Hq msg)].
    + split.
      * intros [w' Hrun]. destruct e1; simplify_eq; (split; [done|]);
          right; exists d; (split; [done|]); by left.
      * intros ([Hu Hq] & [[[=] _]|(d' & [= <-] & [Hr|(a & Hr & Hg)])]);
          [|congruence].
        rewrite Hrec in Hr. injection Hr as <-. exists w.
        destruct e1; first [done | by destruct (Hq msg)].
  - split.
    + intros [w' [= <- _]]. split; [done|]. by left.
    + intros (_ & [[_ ->]|(d' & [=] & _)]). by exists w.
Qed.

(** ** Prosody: truncation *)

Lemma truncate_series_lengths (pt pv it iv : list float64) :
  let n := (length pt `min` (length pv `min` (length it `min` length iv)))%nat in
  truncate_series (pt, pv, it, iv) = (take n pt, take n pv, take n it, take n iv)
  ∧ length (take n pt) = n ∧ length (take n pv) = n
  ∧ length (take n it) = n ∧ length (take n iv) = n.
Proof. intros n. split; [done|]. rewrite !length_take. lia. Qed.

(** After the truncation the two [plt.plot] calls cannot fail. *)
Lemma draw_truncate_Ok raw : ∃ fig, draw (truncate_series raw) = Ok fig.
Proof.
  destruct raw as [[[pt pv] it] iv].
  destruct (truncate_series_lengths pt pv it iv) as (-> & Hpt & Hpv & Hit & Hiv).
  destruct (draw_Ok _ _ _ _ (eq_trans Hpt (eq_sym Hpv)) (eq_trans Hit (eq_sym Hiv)))
    as (fig & Hfig & _).
  by exists fig.
Qed.

(** X2: the truncation of lines 57-59 only ever drops a tail: each
    series it returns is a prefix of the one it was given.  Series that
    already agree in length pass unchanged, and truncating twice is
    truncating once. *)
Theorem truncate_series_prefix (pt pv it iv : list float64) :
  ∃ pt' pv' it' iv',
    truncate_series (pt, pv, it, iv) = (pt', pv', it', iv')
    ∧ pt' `prefix_of` pt ∧ pv' `prefix_of` pv
    ∧ it' `prefix_of` it ∧ iv' `prefix_of` iv
    ∧ (length pt = length pv → length pv = length it → length it = length iv →
       (pt', pv', it', iv') = (pt, pv, it, iv))
    ∧ truncate_series (pt', pv', it', iv') = (pt', pv', it', iv').
Proof.
  destruct (truncate_series_lengths pt pv it iv) as (Heq & Hpt & Hpv & Hit & Hiv).
  eexists _, _, _, _. split; [exact Heq|].
  repeat (split; [apply prefix_take|]). split.
  - intros H1 H2 H3. rewrite !take_ge by lia. done.
  - unfold truncate_series. rewrite Hpt, Hpv, Hit, Hiv, !Nat.min_id.
    rewrite !take_take, !Nat.min_id. done.
Qed.

(** ** Prosody: how many points are plotted *)

Lemma mask_select_length (a freqs : list float64) :
  length a = length freqs →
  length (mask_select a (gt0 freqs))
  = length (filter (λ f : float64, SFltb zero f) freqs).
Proof.
  revert a. induction freqs as [|f freqs IH]; intros [|x a] Hlen; simplify_eq/=; [done|].
  rewrite filter_cons. destruct (SFltb zero f); simpl; by rewrite IH.
Qed.

(** X3: both curves of the chart have as many points as the least of:
    the number of voiced frames (frequency above zero), the number of
    intensity times, and the number of intensity values.  The intensity
    curve is thus cut down to the count of voiced frames, and for a
    recording without a voiced frame the chart is empty. *)
Theorem prosody_plot_length sound pitch intensity :
  to_pitch sound = Ok pitch →
  length (pitch_xs pitch) = length (frequency pitch) →
  to_intensity sound = Ok intensity →
  ∃ raw pt pv it iv,
    extracted_series sound = Ok raw
    ∧ truncate_series raw = (pt, pv, it, iv)
    ∧ (let n := (length (filter (λ f : float64, SFltb zero f) (frequency pitch))
                 `min` (length (intensity_xs intensity)
                 `min` length (T_flatten (values intensity))))%nat in
       length pt = n ∧ length pv = n ∧ length it = n ∧ length iv = n)
    ∧ (Forall (λ f, SFltb zero f = false) (frequency pitch) →
       (pt, pv, it, iv) = ([], [], [], [])).
Proof.
  intros Hpitch Hlen Hint.
  destruct (extracted_series_Ok sound pitch intensity Hpitch Hlen Hint)
    as (vt & vv & Hvoiced & Hraw).
  assert (length vt = length (filter (λ f : float64, SFltb zero f) (frequency pitch))
          ∧ length vv = length (filter (λ f : float64, SFltb zero f) (frequency pitch)))
    as [Hvt Hvv].
  { unfold voiced, bool_index in Hvoiced.
    rewrite !decide_True in Hvoiced by (by rewrite gt0_length).
    injection Hvoiced as <- <-. split; by apply mask_select_length. }
  destruct (truncate_series_lengths vt vv (intensity_xs intensity)
              (T_flatten (values intensity))) as (Heq & Hpt & Hpv & Hit & Hiv).
  eexists _, _, _, _, _. split; [exact Hraw|]. split; [exact Heq|].
  split; [cbv zeta; rewrite !length_take; lia|].
  intros Hsilent.
  assert (filter (λ f : float64, SFltb zero f) (frequency pitch) = []) as Hnone.
  { clear -Hsilent. induction Hsilent as [|f fs Hf _ IH]; [done|].
    rewrite filter_cons, Hf. simpl. exact IH. }
  rewrite Hnone in Hvt, Hvv. apply nil_length_inv in Hvt, Hvv. subst vt vv.
  done.
Qed.

(** ** Prosody: the one file it writes *)

Lemma prosody_analysis_cases path name w r w' :
  prosody_analysis path name w = (r, w') →
  (∃ e, r = Raise e ∧ w' = w)
  ∨ ∃ fig,
      r = Ok (os_path_join (lit "static") (name ++ lit "_prosody.png"))
      ∧ creatable (os_path_join (lit "static") (name ++ lit "_prosody.png")) = true
      ∧ w' = set_fs (<[os_path_join (lit "static") (name ++ lit "_prosody.png")
                       := Bytes (png_of_figure fig)]> (fs w)) w.
Proof.
  unfold prosody_analysis, plt_savefig, fs_write, mbind, M_bind, bind, fs_read, lift,
    mret, M_ret, ret.
  destruct (fs w !! path) as [d|]; [|intros [= <- <-]; left; by eexists].
  destruct (parselmouth_Sound d) as [sound|e]; [|intros [= <- <-]; left; by eexists].
  destruct (extracted_series sound) as [raw|e]; [|intros [= <- <-]; left; by eexists].
  destruct (draw (truncate_series raw)) as [fig|e]; [|intros [= <- <-]; left; by eexists].
  destruct (creatable _) eqn:Hcreat; intros [= <- <-].
  - right. by exists fig.
  - left. by eexists.
Qed.

Lemma prosody_analysis_run path name w d sound raw :
  fs w !! path = Some d →
  parselmouth_Sound d = Ok sound →
  extracted_series sound = Ok raw →
  creatable (os_path_join (lit "static") (name ++ lit "_prosody.png")) = true →
  ∃ fig,
    draw (truncate_series raw) = Ok fig
    ∧ prosody_analysis path name w
      = (Ok (os_path_join (lit "static") (name ++ lit "_prosody.png")),
         set_fs (<[os_path_join (lit "static") (name ++ lit "_prosody.png")
                   := Bytes (png_of_figure fig)]> (fs w)) w).
Proof.
  intros Hd Hsound Hraw Hcreat.
  destruct (draw_truncate_Ok raw) as [fig Hfig]. exists fig. split; [done|].
  unfold prosody_analysis, plt_savefig, fs_write, mbind, M_bind, bind, fs_read, lift,
    mret, M_ret, ret.
  by rewrite Hd, Hsound, Hraw, Hfig, Hcreat.
Qed.

Lemma prosody_analysis_Ok_iff path name w :
  (∃ p w', prosody_analysis path name w = (Ok p, w'))
  ↔ ∃ d sound raw,
      fs w !! path = Some d ∧ parselmouth_Sound d = Ok sound
      ∧ extracted_series sound = Ok raw
      ∧ creatable (os_path_join (lit "static") (name ++ lit "_prosody.png")) = true.
Proof.
  split.
  - intros (p & w' & Hrun). revert Hrun.
    unfold prosody_analysis, plt_savefig, fs_write, mbind, M_bind, bind, fs_read,
      lift, mret, M_ret, ret.
    destruct (fs w !! path) as [d|] eqn:Hd; [|done].
    destruct (parselmouth_Sound d) as [sound|e] eqn:Hsound; [|done].
    destruct (extracted_series sound) as [raw|e] eqn:Hraw; [|done].
    destruct (draw (truncate_series raw)) as [fig|e]; [|done].
    destruct (creatable _) eqn:Hcreat; [|done].
    intros _. by exists d, sound, raw.
  - intros (d & sound & raw & Hd & Hsound & Hraw & Hcreat).
    destruct (prosody_analysis_run path name w d sound raw Hd Hsound Hraw Hcreat)
      as (fig & _ & Hok).
    by eexists _, _.
Qed.

(** X4: [prosody_analysis] writes one file or none.  It returns exactly
    when the audio file is there, the library decodes it, the four
    series are extracted and the chart path can be created; plotting
    itself never fails.  It then has written the chart, and only the
    chart; when it raises it has written nothing. *)
Theorem prosody_analysis_all_or_nothing path name w r w' :
  prosody_analysis path name w = (r, w') →
  let plot := os_path_join (lit "static") (name ++ lit "_prosody.png") in
  ((∃ e, r = Raise e) → w' = w)
  ∧ ((∃ p, r = Ok p)
     ↔ ∃ d sound raw,
         fs w !! path = Some d ∧ parselmouth_Sound d = Ok sound
         ∧ extracted_series sound = Ok raw ∧ creatable plot = true)
  ∧ ((∃ p, r = Ok p) →
     r = Ok plot
     ∧ (∃ chart, fs w' !! plot = Some (Bytes chart))
     ∧ ∀ p, p ≠ plot → fs w' !! p = fs w !! p).
Proof.
  intros Hrun plot. split; [|split].
  - intros [e ->].
    apply prosody_analysis_cases in Hrun as [(e' & _ & ->)|(fig & [=] & _)]. done.
  - etrans; [|apply (prosody_analysis_Ok_iff path name w)]. split.
    + intros [p ->]. by exists p, w'.
    + intros (p & w2 & Hok). rewrite Hok in Hrun. injection Hrun as <- _. by exists p.
  - intros [p ->].
    apply prosody_analysis_cases in Hrun as [(e' & [=] & _)|(fig & Hp & _ & ->)].
    split; [done|]. fold plot. simpl. split.
    + eexists. apply lookup_insert_eq.
    + intros q Hq. by apply lookup_insert_ne.
Qed.

End Analyses.

Section Handlers.
Context `{E : Externals}.

(** ** The upload handler, step by step *)

Lemma Ok_inj {A} (a b : A) : Ok a = Ok b → a = b.
Proof. by intros [= ->]. Qed.

Lemma job_name_exists w :
  ∃ c rest, c ≠ 47 ∧ generate_unique_name w = (Ok (c :: rest), consume 16 w).
Proof.
  pose proof (generate_unique_name_eq w) as Heq.
  destruct (generate_unique_name_Ok _ _ _ Heq) as (_ & c & rest & Hname & Hc).
  exists c, rest. split; [done|]. by rewrite <- Hname.
Qed.

(** A POST with a named upload, unfolded along its four steps. *)
Lemma index_post_eq req w file name :
  method req = POST →
  multidict_get (lit "audio_file") (files req) = Some file →
  filename file ≠ [] →
  generate_unique_name w = (Ok name, consume 16 w) →
  let upload := lit "uploads/" ++ name ++ lit "_" ++ filename file in
  let out := lit "outputs/" ++ name ++ lit ".txt" in
  let w1 := set_fs (<[upload := Bytes (stream file)]> (fs w)) (consume 16 w) in
  index req w =
    if creatable upload then
      match transcribe_audio_to_text upload w1 with
      | (Ok text, _) =>
          match prosody_analysis upload name w1 with
          | (Ok _, w2) =>
              let phonetic := join (lit " ") (phonetic_transcription <$> split text) in
              if creatable out then
                (Ok (render_template (lit "index.html")
                       (Some {| ctx_text := text;
                                ctx_phonetic := phonetic;
                                ctx_plot_url :=
                                  url_for (lit "static") (name ++ lit "_prosody.png");
                                ctx_download_url :=
                                  url_for (lit "download_file") (name ++ lit ".txt") |})),
                 set_fs (<[out := Text (lit "Transcribed Text:" ++ [10] ++ text
                                        ++ [10; 10] ++ lit "Phonetic Transcription:"
                                        ++ [10] ++ phonetic)]> (fs w2)) w2)
              else (Raise (OSError out), w2)
          | (Raise e, w2) => (Raise e, w2)
          end
      | (Raise e, _) => (Raise e, w1)
      end
    else (Raise (OSError upload), consume 16 w).
Proof.
  intros Hpost Hfile Hname Hid upload out w1.
  unfold index. rewrite Hpost, Hfile, decide_False by done.
  unfold mbind, M_bind, bind. rewrite Hid.
  apply generate_unique_name_Ok in Hid as (_ & c & rest & Hcr & Hc).
  subst name. unfold UPLOAD_FOLDER, OUTPUT_FOLDER.
  rewrite !(job_path _ c rest) by done.
  change (lit "uploads" ++ [47] ++ (c :: rest) ++ lit "_" ++ filename file)
    with upload.
  change (lit "outputs" ++ [47] ++ (c :: rest) ++ lit ".txt") with out.
  unfold file_save, fs_write. destruct (creatable upload); [|done].
  change (fs (consume 16 w)) with (fs w). fold w1. cbv beta iota.
  destruct (transcribe_audio_to_text upload w1) as [[text|e] w2] eqn:Htext;
    pose proof (transcribe_world _ _ _ _ Htext) as ->; [|done].
  destruct (prosody_analysis upload (c :: rest) w1) as [[p|e] w2]; [|done].
  destruct (creatable out); done.
Qed.

(** The four ways a POST with a named upload can end. *)
Lemma index_post_outcomes req w r w' file :
  method req = POST →
  multidict_get (lit "audio_file") (files req) = Some file →
  filename file ≠ [] →
  index req w = (r, w') →
  ∃ name,
    generate_unique_name w = (Ok name, consume 16 w)
    ∧ let upload := lit "uploads/" ++ name ++ lit "_" ++ filename file in
      let plot := lit "static/" ++ name ++ lit "_prosody.png" in
      let out := lit "outputs/" ++ name ++ lit ".txt" in
      let saved := <[upload := Bytes (stream file)]> (fs w) in
      let w1 := set_fs saved (consume 16 w) in
      (creatable upload = false ∧ r = Raise (OSError upload) ∧ w' = consume 16 w)
      ∨ (creatable upload = true
         ∧ ∃ e, r = Raise e ∧ w' = w1
           ∧ (transcribe_audio_to_text upload w1 = (Raise e, w1)
              ∨ ∃ text, transcribe_audio_to_text upload w1 = (Ok text, w1)
                  ∧ prosody_analysis upload name w1 = (Raise e, w1)))
      ∨ (creatable upload = true ∧ creatable plot = true ∧ creatable out = false
         ∧ ∃ text fig,
             transcribe_audio_to_text upload w1 = (Ok text, w1)
             ∧ prosody_analysis upload name w1
               = (Ok plot, set_fs (<[plot := Bytes (png_of_figure fig)]> saved) w1)
             ∧ r = Raise (OSError out)
             ∧ w' = set_fs (<[plot := Bytes (png_of_figure fig)]> saved) w1)
      ∨ (creatable upload = true ∧ creatable plot = true ∧ creatable out = true
         ∧ ∃ text fig,
             transcribe_audio_to_text upload w1 = (Ok text, w1)
             ∧ prosody_analysis upload name w1
               = (Ok plot, set_fs (<[plot := Bytes (png_of_figure fig)]> saved) w1)
             ∧ (∃ page, r = Ok (render_template (lit "index.html") (Some page))
                 ∧ ctx_text page = text
                 ∧ ctx_phonetic page
                   = join (lit " ") (phonetic_transcription <$> split text)
                 ∧ ctx_plot_url page = url_for (lit "static") (name ++ lit "_prosody.png")
                 ∧ ctx_download_url page
                   = url_for (lit "download_file") (name ++ lit ".txt"))
             ∧ w' = set_fs
                      (<[out := Text (lit "Transcribed Text:" ++ [10] ++ text
                                      ++ [10; 10] ++ lit "Phonetic Transcription:" ++ [10]
                                      ++ join (lit " ")
                                           (phonetic_transcription <$> split text))]>
                         (<[plot := Bytes (png_of_figure fig)]> saved)) w1).
Proof.
  intros Hpost Hfile Hname Hrun.
  destruct (job_name_exists w) as (c & rest & Hc & Hid).
  exists (c :: rest). split; [exact Hid|].
  rewrite (index_post_eq req w file (c :: rest) Hpost Hfile Hname Hid) in Hrun.
  cbv zeta in Hrun |- *.
  destruct (creatable (lit "uploads/" ++ (c :: rest) ++ lit "_" ++ filename file))
    eqn:Hup; [|left; by injection Hrun as <- <-].
  right.
  destruct (transcribe_audio_to_text _ _) as [[text|e] w2] eqn:Htext;
    pose proof (transcribe_world _ _ _ _ Htext) as ->;
    [|left; split; [done|]; exists e; injection Hrun as <- <-; by repeat split; try left].
  destruct (prosody_analysis _ _ _) as [[p|e] w2] eqn:Hpros.
  - apply prosody_analysis_cases in Hpros as Hcase.
    destruct Hcase as [(e' & [=] & _)|(fig & Hp & Hplot & Hw2)].
    apply Ok_inj in Hp.
    rewrite (job_path _ c rest) in Hp, Hplot, Hw2 by done.
    change (lit "static" ++ [47] ++ (c :: rest) ++ lit "_prosody.png")
      with (lit "static/" ++ (c :: rest) ++ lit "_prosody.png") in Hp, Hplot, Hw2.
    subst p w2. right.
    destruct (creatable (lit "outputs/" ++ (c :: rest) ++ lit ".txt")) eqn:Hout;
      injection Hrun as <- <-.
    + right. repeat (split; [done|]). exists text, fig.
      repeat (split; [done|]). split; [|done]. eexists. by repeat split.
    + left. repeat (split; [done|]). by exists text, fig.
  - apply prosody_analysis_cases in Hpros as Hcase.
    destruct Hcase as [(e' & [= <-] & ->)|(fig & [=] & _)].
    injection Hrun as <- <-. left. split; [done|]. exists e.
    repeat (split; [done|]). right. by exists text.
Qed.

(** ** What a request leaves behind *)


(** X6: no request deletes anything or touches the clock.  Whatever the
    request and however it ends, every file that existed before still
    exists, the clock and the entropy source are the same, and either
    no entropy was drawn or the 16 bytes of one job name.  A request
    that is not a POST changes nothing at all and gets the empty
    page. *)
Theorem index_preserves req w r w' :
  index req w = (r, w') →
  clock w' = clock w ∧ entropy w' = entropy w
  ∧ (drawn w' = drawn w ∨ drawn w' = (drawn w + 16)%nat)
  ∧ (∀ p, is_Some (fs w !! p) → is_Some (fs w' !! p))
  ∧ (method req ≠ POST →
     r = Ok (render_template (lit "index.html") None) ∧ w' = w).
Proof.
  intros Hrun.
  destruct (method req) eqn:Hmethod;
    [unfold index in Hrun; rewrite Hmethod in Hrun; injection Hrun as <- <-;
     repeat split; auto| |
     unfold index in Hrun; rewrite Hmethod in Hrun; injection Hrun as <- <-;
     repeat split; auto].
  destruct (multidict_get (lit "audio_file") (files req)) as [file|] eqn:Hfile.
  2:{ unfold index in Hrun. rewrite Hmethod, Hfile in Hrun. injection Hrun as <- <-.
      repeat split; auto. done. }
  destruct (decide (filename file = [])) as [Hempty|Hname].
  { unfold index in Hrun. rewrite Hmethod, Hfile, decide_True in Hrun by done.
    injection Hrun as <- <-. repeat split; auto. done. }
  destruct (index_post_outcomes req w r w' file Hmethod Hfile Hname Hrun)
    as (name & Hid & Hcases). cbv zeta in Hcases.
  assert (∀ (m : gmap pystr file_data) k v p,
            is_Some (m !! p) → is_Some (<[k := v]> m !! p)) as Hkeep.
  { intros m k v p Hp. rewrite lookup_insert_is_Some.
    destruct (decide (k = p)); [by left|by right]. }
  destruct Hcases as [(_ & _ & ->)|[(_ & e' & _ & -> & _)
    |[(_ & _ & _ & text & fig & _ & _ & _ & ->)
     |(_ & _ & _ & text & fig & _ & _ & _ & ->)]]];
    (split; [done|]); (split; [done|]); (split; [by right|]);
    (split; [|done]); simpl; auto.
Qed.

(** X7: after a POST that returns the page, all three artifacts are
    there together, none written over another: the upload with the
    bytes received, the chart under the name the page's chart URL gives,
    and the transcript under the name its download URL gives. *)
Theorem index_artifacts_coexist req w page w' file :
  method req = POST →
  multidict_get (lit "audio_file") (files req) = Some file →
  filename file ≠ [] →
  index req w = (Ok (render_template (lit "index.html") (Some page)), w') →
  ∃ name chart_name transcript_name chart,
    generate_unique_name w = (Ok name, consume 16 w)
    ∧ ctx_plot_url page = url_for (lit "static") chart_name
    ∧ ctx_download_url page = url_for (lit "download_file") transcript_name
    ∧ fs w' !! (lit "uploads/" ++ name ++ lit "_" ++ filename file)
      = Some (Bytes (stream file))
    ∧ fs w' !! (lit "static/" ++ chart_name) = Some (Bytes chart)
    ∧ fs w' !! (lit "outputs/" ++ transcript_name)
      = Some (Text (lit "Transcribed Text:" ++ [10] ++ ctx_text page ++ [10; 10]
                    ++ lit "Phonetic Transcription:" ++ [10] ++ ctx_phonetic page)).
Proof.
  intros Hpost Hfile Hname Hrun.
  destruct (index_post_outcomes req w _ w' file Hpost Hfile Hname Hrun)
    as (name & Hid & Hcases). cbv zeta in Hcases.
  destruct Hcases as [(_ & [=] & _)|[(_ & e' & [=] & _)
    |[(_ & _ & _ & text & fig & _ & _ & [=] & _)
     |(_ & _ & _ & text & fig & _ & _ & (page' & Hpage & Ht & Hp & Hpu & Hdu) & ->)]]].
  apply Ok_inj in Hpage. injection Hpage as ->.
  exists name, (name ++ lit "_prosody.png"), (name ++ lit ".txt"), (png_of_figure fig).
  split; [exact Hid|]. split; [exact Hpu|]. split; [exact Hdu|].
  rewrite Ht, Hp. simpl. split; [|split].
  - rewrite !lookup_insert_ne by discriminate. apply lookup_insert_eq.
  - rewrite lookup_insert_ne by discriminate. apply lookup_insert_eq.
  - apply lookup_insert_eq.
Qed.

(** ** When an upload goes through *)




(** X9: an error of the speech service is stored as if it were the
    transcript.  When the service cannot interpret the upload
    ([UnknownValueError]) and the rest of the pipeline succeeds, the
    POST returns the page as for a recognised recording: its text is
    the error message, its phonetic string is the message put through
    the dictionary word by word, and both are written to the transcript
    file. *)
Theorem index_error_as_content req w file sound raw :
  method req = POST →
  multidict_get (lit "audio_file") (files req) = Some file →
  filename file ≠ [] →
  service_raises (Bytes (stream file)) UnknownValueError →
  parselmouth_Sound (Bytes (stream file)) = Ok sound →
  extracted_series sound = Ok raw →
  ∃ name,
    generate_unique_name w = (Ok name, consume 16 w)
    ∧ (creatable (lit "uploads/" ++ name ++ lit "_" ++ filename file) = true →
       creatable (lit "static/" ++ name ++ lit "_prosody.png") = true →
       creatable (lit "outputs/" ++ name ++ lit ".txt") = true →
       ∃ page w',
         index req w = (Ok (render_template (lit "index.html") (Some page)), w')
         ∧ ctx_text page = lit "Could not understand the audio."
         ∧ ctx_phonetic page
           = join (lit " ")
               (phonetic_transcription
                  <$> [lit "Could"; lit "not"; lit "understand"; lit "the"; lit "audio."])
         ∧ fs w' !! (lit "outputs/" ++ name ++ lit ".txt")
           = Some (Text (lit "Transcribed Text:" ++ [10]
                         ++ lit "Could not understand the audio." ++ [10; 10]
                         ++ lit "Phonetic Transcription:" ++ [10] ++ ctx_phonetic page))).
Proof.
  intros Hpost Hfile Hname Hserv Hsound Hraw.
  destruct (job_name_exists w) as (c & rest & Hc & Hid).
  exists (c :: rest). split; [exact Hid|]. intros Hup Hplot Hout.
  set (upload := lit "uploads/" ++ (c :: rest) ++ lit "_" ++ filename file) in *.
  set (w1 := set_fs (<[upload := Bytes (stream file)]> (fs w)) (consume 16 w)).
  assert (fs w1 !! upload = Some (Bytes (stream file))) as Hsaved
    by apply lookup_insert_eq.
  rewrite (index_post_eq req w file (c :: rest) Hpost Hfile Hname Hid).
  cbv zeta. fold upload. fold w1. rewrite Hup.
  rewrite (proj1 (transcribe_handled upload w1 _ Hsaved) Hserv).
  destruct (prosody_analysis_run upload (c :: rest) w1 _ sound raw Hsaved Hsound Hraw)
    as (fig & _ & ->); [by rewrite job_path|].
  rewrite Hout. eexists _, _. split; [reflexivity|].
  split; [reflexivity|]. split; [reflexivity|].
  cbn [fs set_fs ctx_phonetic]. apply lookup_insert_eq.
Qed.

(** ** Job names as file names *)

Lemma strftime_chars d :
  Forall (λ c, is_hex_digit c = true ∨ c = 95) (strftime_Ymd_HMS d).
Proof.
  assert (∀ wd n, Forall (λ c, is_hex_digit c = true ∨ c = 95) (zfill wd (dec n)))
    as Hdigits.
  { intros wd n. eapply Forall_impl; [apply dec_digits|].
    intros c Hc. left. unfold is_hex_digit. by rewrite Hc. }
  unfold strftime_Ymd_HMS. repeat (apply Forall_app; split; [apply Hdigits|]).
  apply Forall_app. split; [by repeat constructor; right|].
  repeat (apply Forall_app; split; [apply Hdigits|]). apply Hdigits.
Qed.

Lemma job_name_chars w name w' :
  generate_unique_name w = (Ok name, w') →
  Forall (λ c, is_hex_digit c = true ∨ c = 95) name.
Proof.
  rewrite generate_unique_name_eq. intros Heq.
  apply Ok_pair_inv in Heq as [<- _].
  apply Forall_app. split; [apply strftime_chars|].
  apply Forall_app. split; [by repeat constructor; right|].
  eapply Forall_impl; [apply uuid_suffix_hex|]. intros c Hc. by left.
Qed.

Lemma strftime_length d : valid_datetime d → length (strftime_Ymd_HMS d) = 15%nat.
Proof.
  intros (Hy & Hm & Hd & HH & HM & HS & _). unfold strftime_Ymd_HMS.
  rewrite !length_app, zfill4_length, !zfill2_length by lia. done.
Qed.


(** ** The download route *)

Lemma download_file_eq filename w :
  routable filename →
  download_file filename w
  = match fs w !! (lit "outputs/" ++ filename) with
    | Some d => (Ok {| sent_path := lit "outputs/" ++ filename;
                       sent_body := d; as_attachment := true |}, w)
    | None => (Raise (OSError (lit "outputs/" ++ filename)), w)
    end.
Proof.
  intros [Hne Hslash]. destruct filename as [|c rest]; [done|].
  unfold download_file, send_file, OUTPUT_FOLDER.
  rewrite os_path_join_relative; [|by intros ->; apply Hslash; left|done..].
  unfold mbind, M_bind, bind, fs_read, mret, M_ret, ret.
  change (lit "outputs" ++ [47] ++ c :: rest) with (lit "outputs/" ++ c :: rest).
  by destruct (fs w !! _).
Qed.

(** X11: for every file name the route can deliver (non-empty, without
    a slash), [download_file] opens exactly [outputs/<filename>]: it
    sends, as an attachment, what the file system holds there, raises
    when nothing is there, and in either case leaves the world as it
    was. *)
Theorem download_file_serves filename w r w' :
  routable filename →
  download_file filename w = (r, w') →
  w' = w
  ∧ (∀ sent, r = Ok sent →
       sent_path sent = lit "outputs/" ++ filename
       ∧ fs w !! (lit "outputs/" ++ filename) = Some (sent_body sent)
       ∧ as_attachment sent = true)
  ∧ (∀ e, r = Raise e →
       e = OSError (lit "outputs/" ++ filename)
       ∧ fs w !! (lit "outputs/" ++ filename) = None).
Proof.
  intros Hroute. rewrite (download_file_eq filename w Hroute).
  destruct (fs w !! _) as [d|] eqn:Hd; intros [= <- <-].
  - split; [done|]. split; [|done]. by intros sent [= <-].
  - split; [done|]. split; [done|]. by intros e [= <-].
Qed.

(** X12: what was uploaded can be downloaded.  After a POST that
    returns the page, the file name in the page's download URL is one
    the download route accepts, and [download_file] on it returns the
    transcript file: the text and the phonetic string of the page in
    the two-section layout. *)
Theorem index_then_download req w page w' file :
  method req = POST →
  multidict_get (lit "audio_file") (files req) = Some file →
  filename file ≠ [] →
  index req w = (Ok (render_template (lit "index.html") (Some page)), w') →
  ∃ transcript_name,
    ctx_download_url page = url_for (lit "download_file") transcript_name
    ∧ routable transcript_name
    ∧ download_file transcript_name w'
      = (Ok {| sent_path := lit "outputs/" ++ transcript_name;
               sent_body :=
                 Text (lit "Transcribed Text:" ++ [10] ++ ctx_text page ++ [10; 10]
                       ++ lit "Phonetic Transcription:" ++ [10] ++ ctx_phonetic page);
               as_attachment := true |}, w').
Proof.
  intros Hpost Hfile Hname Hrun.
  destruct (index_post_outcomes req w _ w' file Hpost Hfile Hname Hrun)
    as (name & Hid & Hcases). cbv zeta in Hcases.
  destruct Hcases as [(_ & [=] & _)|[(_ & e' & [=] & _)
    |[(_ & _ & _ & text & fig & _ & _ & [=] & _)
     |(_ & _ & _ & text & fig & _ & _ & (page' & Hpage & Ht & Hp & Hpu & Hdu) & ->)]]].
  apply Ok_inj in Hpage. injection Hpage as ->.
  exists (name ++ lit ".txt"). split; [exact Hdu|].
  assert (routable (name ++ lit ".txt")) as Hroute.
  { split; [by destruct name|].
    pose proof (job_name_chars w name _ Hid) as Hchars.
    rewrite elem_of_app. intros [Hin|Hin].
    - rewrite Forall_forall in Hchars. by destruct (Hchars _ Hin).
    - vm_compute in Hin. by repeat (apply elem_of_cons in Hin as [Hin|Hin]; [done|]);
        apply elem_of_nil in Hin. }
  split; [exact Hroute|].
  rewrite (download_file_eq _ _ Hroute), Ht, Hp. cbn [fs set_fs].
  by rewrite lookup_insert_eq.
Qed.

(** ** Well-spaced transcripts *)

(** X13: for a transcript that is a sequence of words separated by
    single spaces, the phonetic string of the page is the lookups of
    exactly those words, one per word and in order, separated by single
    spaces. *)
Theorem index_phonetic_of_words req w page w' file words :
  method req = POST →
  multidict_get (lit "audio_file") (files req) = Some file →
  filename file ≠ [] →
  index req w = (Ok (render_template (lit "index.html") (Some page)), w') →
  Forall (λ word, word ≠ [] ∧ Forall (λ c, isspace c = false) word) words →
  ctx_text page = join (lit " ") words →
  ctx_phonetic page = join (lit " ") (phonetic_transcription <$> words)
  ∧ length (split (ctx_text page)) = length words.
Proof.
  intros Hpost Hfile Hname Hrun Hwords Htext.
  destruct (index_post_outcomes req w _ w' file Hpost Hfile Hname Hrun)
    as (name & Hid & Hcases). cbv zeta in Hcases.
  destruct Hcases as [(_ & [=] & _)|[(_ & e' & [=] & _)
    |[(_ & _ & _ & text & fig & _ & _ & [=] & _)
     |(_ & _ & _ & text & fig & _ & _ & (page' & Hpage & Ht & Hp & _) & _)]]].
  apply Ok_inj in Hpage. injection Hpage as ->.
  rewrite Hp, <- Ht, Htext, (split_join words Hwords). done.
Qed.

(** Sufficient for a POST with a named upload to return the page. *)
Lemma index_post_page req w file name text sound raw :
  method req = POST →
  multidict_get (lit "audio_file") (files req) = Some file →
  filename file ≠ [] →
  generate_unique_name w = (Ok name, consume 16 w) →
  let upload := lit "uploads/" ++ name ++ lit "_" ++ filename file in
  let w1 := set_fs (<[upload := Bytes (stream file)]> (fs w)) (consume 16 w) in
  creatable upload = true →
  creatable (lit "static/" ++ name ++ lit "_prosody.png") = true →
  creatable (lit "outputs/" ++ name ++ lit ".txt") = true →
  transcribe_audio_to_text upload w1 = (Ok text, w1) →
  parselmouth_Sound (Bytes (stream file)) = Ok sound →
  extracted_series sound = Ok raw →
  ∃ page w',
    index req w = (Ok (render_template (lit "index.html") (Some page)), w')
    ∧ ctx_text page = text.
Proof.
  intros Hpost Hfile Hname Hid upload w1 Hup Hplot Hout Htext Hsound Hraw.
  rewrite (index_post_eq req w file name Hpost Hfile Hname Hid).
  cbv zeta. fold upload. fold w1. rewrite Hup, Htext.
  apply generate_unique_name_Ok in Hid as (_ & c & rest & Hcr & Hc).
  destruct (prosody_analysis_run upload name w1 _ sound raw
              (lookup_insert_eq _ _ _) Hsound Hraw) as (fig & _ & ->).
  { subst name. by rewrite job_path. }
  rewrite Hout. by eexists _, _.
Qed.

(** ** One upload after another *)

Lemma job_name_length w name w' :
  generate_unique_name w = (Ok name, w') →
  valid_datetime (clock w) → length name = 24%nat.
Proof.
  rewrite generate_unique_name_eq. intros Heq Hvalid.
  apply Ok_pair_inv in Heq as [<- _].
  rewrite !length_app, strftime_length, uuid_suffix_length by done. done.
Qed.

Lemma job_paths_distinct (dir name1 name2 tail1 tail2 : pystr) :
  length name1 = length name2 → name1 ≠ name2 →
  dir ++ name1 ++ tail1 ≠ dir ++ name2 ++ tail2.
Proof.
  intros Hlen Hne Heq. apply app_inv_head in Heq.
  by apply app_inj_1 in Heq as [? _].
Qed.

(** X14: two uploads contend for files only when their job names
    collide.  Take a POST that returns its page and a second one that
    starts from the file system the first left (at any later time, with
    any entropy) and returns its page too, both clocks in the range of
    [datetime].  If the two job names differ, the upload, the chart and
    the transcript of the first are still there, unchanged.  If they
    are the same, the transcript of the first has been replaced by that
    of the second. *)
Theorem index_jobs_contend_iff_same_name
    req1 req2 file1 file2 w w1 wb w2 page1 page2 :
  method req1 = POST →
  multidict_get (lit "audio_file") (files req1) = Some file1 →
  filename file1 ≠ [] →
  method req2 = POST →
  multidict_get (lit "audio_file") (files req2) = Some file2 →
  filename file2 ≠ [] →
  valid_datetime (clock w) → valid_datetime (clock wb) →
  index req1 w = (Ok (render_template (lit "index.html") (Some page1)), w1) →
  fs wb = fs w1 →
  index req2 wb = (Ok (render_template (lit "index.html") (Some page2)), w2) →
  ∃ name1 name2,
    generate_unique_name w = (Ok name1, consume 16 w)
    ∧ generate_unique_name wb = (Ok name2, consume 16 wb)
    ∧ (name1 ≠ name2 →
       ∀ p, p ∈ [lit "uploads/" ++ name1 ++ lit "_" ++ filename file1;
                 lit "static/" ++ name1 ++ lit "_prosody.png";
                 lit "outputs/" ++ name1 ++ lit ".txt"] →
            is_Some (fs w1 !! p) ∧ fs w2 !! p = fs w1 !! p)
    ∧ (name1 = name2 →
       fs w2 !! (lit "outputs/" ++ name1 ++ lit ".txt")
       = Some (Text (lit "Transcribed Text:" ++ [10] ++ ctx_text page2 ++ [10; 10]
                     ++ lit "Phonetic Transcription:" ++ [10] ++ ctx_phonetic page2))).
Proof.
  intros Hpost1 Hfile1 Hname1 Hpost2 Hfile2 Hname2 Hvalid1 Hvalid2 Hrun1 Hfs Hrun2.
  destruct (index_post_outcomes req1 w _ w1 file1 Hpost1 Hfile1 Hname1 Hrun1)
    as (name1 & Hid1 & Hcases1). cbv zeta in Hcases1.
  destruct Hcases1 as [(_ & [=] & _)|[(_ & e' & [=] & _)
    |[(_ & _ & _ & text & fig & _ & _ & [=] & _)
     |(_ & _ & _ & text1 & fig1 & _ & _ & _ & Hw1)]]].
  destruct (index_post_outcomes req2 wb _ w2 file2 Hpost2 Hfile2 Hname2 Hrun2)
    as (name2 & Hid2 & Hcases2). cbv zeta in Hcases2.
  destruct Hcases2 as [(_ & [=] & _)|[(_ & e' & [=] & _)
    |[(_ & _ & _ & text & fig & _ & _ & [=] & _)
     |(_ & _ & _ & text2 & fig2 & _ & _ & (page' & Hpage & Ht & Hp & _) & Hw2)]]].
  apply Ok_inj in Hpage. injection Hpage as ->.
  exists name1, name2. split; [exact Hid1|]. split; [exact Hid2|].
  pose proof (job_name_length _ _ _ Hid1 Hvalid1) as Hlen1.
  pose proof (job_name_length _ _ _ Hid2 Hvalid2) as Hlen2.
  rewrite Hw2. cbn [fs set_fs]. rewrite Hfs. split.
  - intros Hne p Hp'.
    assert (length name2 = length name1) as Hlen by congruence.
    assert (name2 ≠ name1) as Hne' by congruence.
    assert (is_Some (fs w1 !! p)) as Hsome.
    { rewrite Hw1. cbn [fs set_fs].
      repeat (apply elem_of_cons in Hp' as [->|Hp']);
        [|rewrite lookup_insert_ne by discriminate
         |rewrite lookup_insert_eq; by eexists
         |by apply elem_of_nil in Hp'].
      - rewrite !lookup_insert_ne by discriminate.
        rewrite lookup_insert_eq. by eexists.
      - rewrite lookup_insert_eq. by eexists. }
    split; [exact Hsome|].
    repeat (apply elem_of_cons in Hp' as [->|Hp']); [| | |by apply elem_of_nil in Hp'].
    + rewrite lookup_insert_ne by discriminate.
      rewrite lookup_insert_ne by discriminate.
      by rewrite lookup_insert_ne by (by apply job_paths_distinct).
    + rewrite lookup_insert_ne by discriminate.
      rewrite lookup_insert_ne by (by apply job_paths_distinct).
      by rewrite lookup_insert_ne by discriminate.
    + rewrite lookup_insert_ne by (by apply job_paths_distinct).
      rewrite lookup_insert_ne by discriminate.
      by rewrite lookup_insert_ne by discriminate.
  - intros ->. rewrite Ht, Hp. apply lookup_insert_eq.
Qed.

End Handlers.

(** ** The sample runs *)

Lemma demo_index_page first_byte :
  first_byte = 0 ∨ first_byte = 2 ∨ first_byte = 3 →
  ∃ page w',
    @index demo (demo_upload first_byte) demo_world
    = (Ok (render_template (lit "index.html") (Some page)), w').
Proof.
  intros Hb. destruct (demo_index_returns first_byte Hb) as (resp & w' & Hrun).
  destruct (@index_post_Ok demo (demo_upload first_byte) demo_world resp w'
              {| filename := lit "a.wav"; stream := [first_byte; 7; 7] |}
              eq_refl eq_refl ltac:(discriminate) Hrun)
    as (name & text & fig & _ & _ & _ & Hresp & _).
  rewrite Hresp in Hrun. by eexists _, _.
Qed.


Lemma transcribe_raises_iff_witness :
  ∃ w', @transcribe_audio_to_text demo (lit "clip.wav")
          (set_fs {[ lit "clip.wav" := Text (lit "not a recording") ]} demo_world)
        = (Raise (LibraryError (lit "not an audio file")), w').
Proof.
  apply (proj2 (@transcribe_raises_iff demo (lit "clip.wav")
                  (set_fs {[ lit "clip.wav" := Text (lit "not a recording") ]} demo_world)
                  (LibraryError (lit "not an audio file")))).
  split; [by split|]. right. exists (Text (lit "not a recording")).
  split; [apply lookup_singleton_eq|]. by left.
Defined.

Lemma truncate_series_prefix_witness :
  truncate_series ([f64 1; f64 2], [f64 220; f64 231], [f64 1; f64 2], [f64 60; f64 61])
  = ([f64 1; f64 2], [f64 220; f64 231], [f64 1; f64 2], [f64 60; f64 61]).
Proof.
  destruct (truncate_series_prefix [f64 1; f64 2] [f64 220; f64 231]
              [f64 1; f64 2] [f64 60; f64 61])
    as (pt & pv & it & iv & Heq & _ & _ & _ & _ & Hsame & _).
  rewrite Heq. by apply Hsame.
Defined.

Lemma prosody_plot_length_witness :
  ∃ raw,
    @extracted_series demo_silence [3; 7; 7] = Ok raw
    ∧ truncate_series raw = ([], [], [], []).
Proof.
  destruct (@prosody_plot_length demo_silence [3; 7; 7]
              {| frequency := [f64 0; f64 0; f64 0];
                 pitch_xs := [f64 1; f64 2; f64 3] |}
              {| values := [[f64 60; f64 61; f64 62; f64 63]];
                 intensity_xs := [f64 1; f64 2; f64 3; f64 4] |}
              eq_refl eq_refl eq_refl)
    as (raw & pt & pv & it & iv & Hraw & Htrunc & _ & Hsilent).
  exists raw. split; [exact Hraw|]. rewrite Htrunc. apply Hsilent.
  by repeat constructor.
Defined.

Lemma prosody_analysis_all_or_nothing_witness :
  ∃ chart w',
    @prosody_analysis demo (lit "clip.wav") (lit "job") (demo_clip 3)
    = (Ok (lit "static/job_prosody.png"), w')
    ∧ fs w' !! lit "static/job_prosody.png" = Some (Bytes chart)
    ∧ fs w' !! lit "clip.wav" = Some (Bytes [3; 7; 7]).
Proof.
  destruct (@prosody_analysis_run demo (lit "clip.wav") (lit "job") (demo_clip 3)
              (Bytes [3; 7; 7]) [3; 7; 7]
              ([f64 2; f64 4; f64 5; f64 7; f64 8; f64 9],
               [f64 220; f64 231; f64 225; f64 226; f64 224; f64 222],
               [f64 1; f64 2; f64 3; f64 4],
               [f64 60; f64 61; f64 62; f64 63]))
    as (fig & _ & Hrun);
    [apply lookup_singleton_eq | reflexivity | vm_compute; reflexivity | reflexivity |].
  destruct (@prosody_analysis_all_or_nothing demo _ _ _ _ _ Hrun)
    as (_ & _ & Hok).
  destruct Hok as (_ & (chart & Hchart) & Hother); [by eexists|].
  eexists chart, _. split; [exact Hrun|]. split; [exact Hchart|].
  rewrite Hother by discriminate. apply lookup_singleton_eq.
Defined.


Lemma index_preserves_witness :
  (∃ resp w', @index demo (demo_upload 3) demo_world = (Ok resp, w')
              ∧ clock w' = clock demo_world)
  ∧ @index demo {| method := GET; files := [] |} (demo_clip 0)
    = (Ok (render_template (lit "index.html") None), demo_clip 0).
Proof.
  split.
  - destruct (demo_index_returns 3) as (resp & w' & Hrun); [by right; right|].
    exists resp, w'. split; [exact Hrun|].
    by destruct (@index_preserves demo _ _ _ _ Hrun) as (Hclock & _).
  - destruct (@index demo {| method := GET; files := [] |} (demo_clip 0))
      as [r w'] eqn:Hrun.
    destruct (@index_preserves demo _ _ _ _ Hrun) as (_ & _ & _ & _ & Hget).
    destruct Hget as [-> ->]; [discriminate|]. reflexivity.
Defined.

Lemma index_artifacts_coexist_witness :
  ∃ page w' chart_name transcript_name chart,
    @index demo (demo_upload 3) demo_world
    = (Ok (render_template (lit "index.html") (Some page)), w')
    ∧ ctx_plot_url page = url_for (lit "static") chart_name
    ∧ ctx_download_url page = url_for (lit "download_file") transcript_name
    ∧ fs w' !! lit "uploads/20240307_090501_052a4f74_a.wav" = Some (Bytes [3; 7; 7])
    ∧ fs w' !! (lit "static/" ++ chart_name) = Some (Bytes chart)
    ∧ is_Some (fs w' !! (lit "outputs/" ++ transcript_name)).
Proof.
  destruct (demo_index_page 3) as (page & w' & Hrun); [by right; right|].
  destruct (@index_artifacts_coexist demo (demo_upload 3) demo_world page w'
              {| filename := lit "a.wav"; stream := [3; 7; 7] |}
              eq_refl eq_refl ltac:(discriminate) Hrun)
    as (name & chart_name & transcript_name & chart & Hid & Hpu & Hdu & Hup & Hch & Htr).
  rewrite demo_job_name in Hid. apply Ok_pair_inv in Hid as [<- _].
  exists page, w', chart_name, transcript_name, chart.
  repeat (split; [assumption|]). by eexists.
Defined.


Lemma index_error_as_content_witness :
  ∃ page w',
    @index demo (demo_upload 0) demo_world
    = (Ok (render_template (lit "index.html") (Some page)), w')
    ∧ ctx_text page = lit "Could not understand the audio."
    ∧ ctx_phonetic page
      = lit "No transcription found N AA1 T No transcription found DH AH0 No transcription found".
Proof.
  edestruct (@index_error_as_content demo (demo_upload 0) demo_world
               {| filename := lit "a.wav"; stream := [0; 7; 7] |} [0; 7; 7])
    as (name & Hid & Hpage);
    [reflexivity | reflexivity | discriminate
    | right; exists [0; 7; 7]; split; reflexivity
    | reflexivity | vm_compute; reflexivity |].
  rewrite demo_job_name in Hid. apply Ok_pair_inv in Hid as [<- _].
  destruct Hpage as (page & w' & Hrun & Htext & Hphon & _);
    [vm_compute; reflexivity..|].
  exists page, w'. split; [exact Hrun|]. split; [exact Htext|].
  rewrite Hphon. vm_compute. reflexivity.
Defined.


Lemma download_file_serves_witness :
  (∃ sent,
     download_file (lit "t.txt")
       (set_fs {[ lit "outputs/t.txt" := Text (lit "hi") ]} demo_world)
     = (Ok sent, set_fs {[ lit "outputs/t.txt" := Text (lit "hi") ]} demo_world)
     ∧ sent_body sent = Text (lit "hi"))
  ∧ download_file (lit "none.txt") demo_world
    = (Raise (OSError (lit "outputs/none.txt")), demo_world).
Proof.
  assert (routable (lit "t.txt")) as Hr1
    by (split; [discriminate|apply (bool_decide_unpack _); by vm_compute]).
  assert (routable (lit "none.txt")) as Hr2
    by (split; [discriminate|apply (bool_decide_unpack _); by vm_compute]).
  split.
  - destruct (download_file (lit "t.txt")
                (set_fs {[ lit "outputs/t.txt" := Text (lit "hi") ]} demo_world))
      as [r w'] eqn:Hrun.
    destruct (download_file_serves _ _ _ _ Hr1 Hrun) as (-> & Hok & Hraise).
    destruct r as [sent|e].
    + exists sent. split; [reflexivity|].
      destruct (Hok sent eq_refl) as (_ & Hbody & _).
      vm_compute in Hbody. injection Hbody as Hbody. exact (eq_sym Hbody).
    + destruct (Hraise e eq_refl) as (_ & Hnone).
      vm_compute in Hnone. discriminate Hnone.
  - destruct (download_file (lit "none.txt") demo_world) as [r w'] eqn:Hrun.
    destruct (download_file_serves _ _ _ _ Hr2 Hrun) as (-> & Hok & Hraise).
    destruct r as [sent|e].
    + destruct (Hok sent eq_refl) as (_ & Hbody & _).
      vm_compute in Hbody. discriminate Hbody.
    + by destruct (Hraise e eq_refl) as (-> & _).
Defined.

Lemma index_then_download_witness :
  ∃ page w' transcript_name sent,
    @index demo (demo_upload 3) demo_world
    = (Ok (render_template (lit "index.html") (Some page)), w')
    ∧ ctx_download_url page = url_for (lit "download_file") transcript_name
    ∧ download_file transcript_name w' = (Ok sent, w')
    ∧ sent_path sent = lit "outputs/" ++ transcript_name.
Proof.
  destruct (demo_index_page 3) as (page & w' & Hrun); [by right; right|].
  destruct (@index_then_download demo (demo_upload 3) demo_world page w'
              {| filename := lit "a.wav"; stream := [3; 7; 7] |}
              eq_refl eq_refl ltac:(discriminate) Hrun)
    as (transcript_name & Hurl & _ & Hdown).
  eexists page, w', transcript_name, _.
  split; [exact Hrun|]. split; [exact Hurl|]. split; [exact Hdown|]. reflexivity.
Defined.

Lemma index_phonetic_of_words_witness :
  ∃ page w',
    @index demo (demo_upload 3) demo_world
    = (Ok (render_template (lit "index.html") (Some page)), w')
    ∧ ctx_phonetic page = lit "HH AH0 L OW1 W ER1 L D".
Proof.
  destruct (demo_index_page 3) as (page & w' & Hrun); [by right; right|].
  exists page, w'. split; [exact Hrun|].
  assert (ctx_text page = join (lit " ") [lit "hello"; lit "world"]) as Htext.
  { destruct (@index_post_Ok demo (demo_upload 3) demo_world _ w'
                {| filename := lit "a.wav"; stream := [3; 7; 7] |}
                eq_refl eq_refl ltac:(discriminate) Hrun)
      as (name & text & fig & _ & Htext & _ & Hpage & _).
    cbv zeta in Htext.
    rewrite (@transcribe_recognized demo _ _ (Bytes [3; 7; 7]) [3; 7; 7]) in Htext;
      [|apply lookup_insert_eq|reflexivity].
    apply Ok_pair_inv in Htext as [<- _].
    injection Hpage as ->. reflexivity. }
  destruct (@index_phonetic_of_words demo (demo_upload 3) demo_world page w'
              {| filename := lit "a.wav"; stream := [3; 7; 7] |}
              [lit "hello"; lit "world"]
              eq_refl eq_refl ltac:(discriminate) Hrun)
    as [Hphon _]; [|exact Htext|].
  - repeat constructor; by vm_compute.
  - rewrite Hphon. vm_compute. reflexivity.
Defined.

Lemma index_jobs_contend_iff_same_name_witness :
  ∃ page1 w1 page2 w2,
    @index demo (demo_upload 3) demo_world
    = (Ok (render_template (lit "index.html") (Some page1)), w1)
    ∧ @index demo (demo_upload 0) w1
      = (Ok (render_template (lit "index.html") (Some page2)), w2)
    ∧ is_Some (fs w1 !! lit "outputs/20240307_090501_052a4f74.txt")
    ∧ fs w2 !! lit "outputs/20240307_090501_052a4f74.txt"
      = fs w1 !! lit "outputs/20240307_090501_052a4f74.txt".
Proof.
  destruct (demo_index_page 3) as (page1 & w1 & Hrun1); [by right; right|].
  destruct (@index_post_Ok demo (demo_upload 3) demo_world _ w1
              {| filename := lit "a.wav"; stream := [3; 7; 7] |}
              eq_refl eq_refl ltac:(discriminate) Hrun1)
    as (name & text & fig & _ & _ & _ & _ & Hw1).
  cbv zeta in Hw1.
  set (left_behind := <[_ := _]> _) in Hw1. clearbody left_behind. subst w1.
  assert (generate_unique_name (set_fs left_behind (consume 16 demo_world))
          = (Ok (lit "20240307_090501_557a9fc4"),
             consume 16 (set_fs left_behind (consume 16 demo_world)))) as Hid2
    by (vm_compute; reflexivity).
  destruct (@index_post_page demo (demo_upload 0)
              (set_fs left_behind (consume 16 demo_world))
              {| filename := lit "a.wav"; stream := [0; 7; 7] |}
              (lit "20240307_090501_557a9fc4")
              (lit "Could not understand the audio.") [0; 7; 7]
              ([f64 2; f64 4; f64 5; f64 7; f64 8; f64 9],
               [f64 220; f64 231; f64 225; f64 226; f64 224; f64 222],
               [f64 1; f64 2; f64 3; f64 4],
               [f64 60; f64 61; f64 62; f64 63]))
    as (page2 & w2 & Hrun2 & _);
    [reflexivity | reflexivity | discriminate | exact Hid2
    | reflexivity | reflexivity | reflexivity
    | apply (proj1 (@transcribe_handled demo _ _ _ (lookup_insert_eq _ _ _)));
      right; exists [0; 7; 7]; split; reflexivity
    | reflexivity | vm_compute; reflexivity |].
  exists page1, (set_fs left_behind (consume 16 demo_world)), page2, w2.
  split; [exact Hrun1|]. split; [exact Hrun2|].
  destruct (@index_jobs_contend_iff_same_name demo
              (demo_upload 3) (demo_upload 0)
              {| filename := lit "a.wav"; stream := [3; 7; 7] |}
              {| filename := lit "a.wav"; stream := [0; 7; 7] |}
              demo_world (set_fs left_behind (consume 16 demo_world))
              (set_fs left_behind (consume 16 demo_world)) w2 page1 page2
              eq_refl eq_refl ltac:(discriminate) eq_refl eq_refl ltac:(discriminate))
    as (name1 & name2 & Hid1 & Hid2' & Hdiffer & _);
    [unfold valid_datetime; simpl; lia | unfold valid_datetime; simpl; lia
    | exact Hrun1 | reflexivity | exact Hrun2 |].
  rewrite demo_job_name in Hid1. apply Ok_pair_inv in Hid1 as [<- _].
  rewrite Hid2 in Hid2'. apply Ok_pair_inv in Hid2' as [<- _].
  apply (Hdiffer ltac:(discriminate)). right; right; left.
Defined.
